(** * ContentFlow AI backend: the access-control middleware

    A shallow embedding of [src/middlewares/auth.js]: the Token Verifier
    ([authenticateToken]), the Role Gate ([requireRole]) and the Ownership
    Gate ([requireWorkspaceAccess]); then of the error handler that ends the
    pipeline and of the handlers of [src/routes/users.js] that run behind
    the verifier.

    The three functions are Express middlewares.  Each of them either calls
    [next()] or writes one JSON error response.  They talk to two outside
    collaborators, the [jsonwebtoken] verifier and the Supabase client; both
    are taken as arguments here, so that every statement below holds for
    whatever they answer.  A run threads a [World]: the request object
    (mutable: the verifier attaches [req.user]) and the trace of what the
    run did to the outside (database lookups, logger calls). *)

From Stdlib Require Import String Ascii List Bool ZArith Lia.
Import ListNotations.
Open Scope string_scope.
Open Scope bool_scope.

(** ** JavaScript values *)

(** The values the middleware tests and compares: [undefined], [null] and
    strings (header values, route parameters, text and uuid columns). *)
Inductive jsval : Type :=
| JUndefined
| JNull
| JStr (s : string).

(** [a === b]. *)
Definition strict_eq (a b : jsval) : bool :=
  match a, b with
  | JUndefined, JUndefined => true
  | JNull, JNull => true
  | JStr s, JStr t => String.eqb s t
  | _, _ => false
  end.

(** The truth value of [v] in a condition: [undefined], [null] and the empty
    string are falsy. *)
Definition truthy (v : jsval) : bool :=
  match v with
  | JStr s => negb (String.eqb s "")
  | _ => false
  end.

(** [s.split(sep)] for a one-character separator. *)
Fixpoint split (sep : ascii) (s : string) : list string :=
  match s with
  | EmptyString => [EmptyString]
  | String c rest =>
      if Ascii.eqb c sep then EmptyString :: split sep rest
      else match split sep rest with
           | piece :: pieces => String c piece :: pieces
           | [] => [String c EmptyString]
           end
  end.

(** [arr[i]] on an array of strings: [undefined] past the end. *)
Definition index (arr : list string) (i : nat) : jsval :=
  match nth_error arr i with
  | Some s => JStr s
  | None => JUndefined
  end.

(** [arr.includes(v)]. *)
Definition includes (arr : list jsval) (v : jsval) : bool :=
  existsb (fun x => strict_eq x v) arr.

(** [arr.join(', ')]: [null] and [undefined] elements print as nothing. *)
Definition join (sep : string) (arr : list jsval) : string :=
  String.concat sep
    (map (fun v => match v with JStr s => s | _ => "" end) arr).

(** ** Rows, errors, requests and responses *)

(** A thrown or reported error object; the code only reads [name]. *)
Module Err.
Record t : Type := { name : string; message : string }.
End Err.

(** A row of [users].  [id] is the primary key; [role] and [status] are
    text columns that the second migration leaves nullable. *)
Module User.
Record t : Type := { id : string; role : jsval; status : jsval }.
End User.

(** A row of [workspace_members]. *)
Module Member.
Record t : Type := { user_id : string; status : jsval }.
End Member.

(** A row of [workspaces] selected together with its [workspace_members]
    rows, an array that may be empty. *)
Module Workspace.
Record t : Type :=
  { owner_id : string; workspace_members : list Member.t }.
End Workspace.

(** The workspace row nested in a client, selected as [workspace]. *)
Module Nested.
Record t : Type := { owner_id : string }.
End Nested.

(** A row of [clients] selected together with its [workspace] row.
    [user_id] and [workspace_id] are nullable, so [workspace] may be
    [null]. *)
Module Client.
Record t : Type :=
  { user_id : jsval; creator_id : string; workspace : option Nested.t }.
End Client.

(** What [res.status(code).json({ error, message })] sends. *)
Module Response.
Record t : Type := { status : nat; error : string; message : string }.
End Response.

(** The parts of [req] the middleware reads: [req.headers.authorization],
    [req.params.workspaceId], [req.params.clientId] and [req.user]. *)
Module Request.
Record t : Type :=
  { authorization : jsval;
    workspaceId : jsval;
    clientId : jsval;
    user : option User.t }.

Definition set_user (u : User.t) (r : t) : t :=
  {| authorization := authorization r;
     workspaceId := workspaceId r;
     clientId := clientId r;
     user := Some u |}.
End Request.

(** ** The collaborators *)

(** A call that returns a value or throws. *)
Inductive outcome (A : Type) : Type :=
| Value (a : A)
| Raises (e : Err.t).
Arguments Value {A} a.
Arguments Raises {A} e.

(** What a Supabase query resolves to: [{ data, error }]. *)
Module Query.
Record result (A : Type) : Type :=
  { data : option A; error : option Err.t }.
Arguments data {A} r.
Arguments error {A} r.

Definition found {A : Type} (a : A) : result A :=
  {| data := Some a; error := None |}.
End Query.

(** [supabaseAdmin.from(table).select(..).eq('id', key).single()], awaited:
    the promise resolves to a result or rejects. *)
Record Database : Type :=
  { users : jsval -> outcome (Query.result User.t);
    workspaces : jsval -> outcome (Query.result Workspace.t);
    clients : jsval -> outcome (Query.result Client.t) }.

(** The payload [jwt.verify] returns; the code reads [decoded.userId]. *)
Record Payload : Type := { userId : jsval }.

(** [jwt.verify(token, process.env.JWT_SECRET)]. *)
Definition Verifier : Type := jsval -> outcome Payload.

(** ** Runs *)

Inductive Event : Type :=
| DbSingle (table : string) (key : jsval)
| LogError (label : string) (e : Err.t).

Record World : Type := { req : Request.t; trace : list Event }.

Definition emit (ev : Event) (w : World) : World :=
  {| req := req w; trace := trace w ++ [ev] |}.

(** What a middleware does in the end. *)
Inductive Action : Type :=
| Next
| Send (r : Response.t).

(** How a block of statements completes: normally, by leaving the function
    (after [return res...json(..)], [return next()] or a final [next()]),
    or by throwing. *)
Inductive completion (A : Type) : Type :=
| Normal (a : A)
| Done (act : Action)
| Throw (e : Err.t).
Arguments Normal {A} a.
Arguments Done {A} act.
Arguments Throw {A} e.

Definition M (A : Type) : Type := World -> completion A * World.

Definition ret {A : Type} (a : A) : M A := fun w => (Normal a, w).

Definition bind {A B : Type} (m : M A) (k : A -> M B) : M B :=
  fun w =>
    match m w with
    | (Normal a, w') => k a w'
    | (Done act, w') => (Done act, w')
    | (Throw e, w') => (Throw e, w')
    end.

Declare Scope js_scope.
Delimit Scope js_scope with js.
Notation "x <- m ;; k" := (bind m (fun x => k))
  (at level 100, m at next level, right associativity) : js_scope.
Notation "m ;; k" := (bind m (fun _ => k))
  (at level 100, right associativity) : js_scope.
Open Scope js_scope.

(** [return res.status(..).json(..)]. *)
Definition reply {A : Type} (status : nat) (error message : string) : M A :=
  fun w =>
    (Done (Send {| Response.status := status;
                   Response.error := error;
                   Response.message := message |}), w).

(** [next()] as the last thing the function does.  What the later stages
    of the pipeline do with the request is not part of the run. *)
Definition next {A : Type} : M A := fun w => (Done Next, w).

Definition throw {A : Type} (e : Err.t) : M A := fun w => (Throw e, w).

(** [if (c) { body }] with nothing after it in the branch. *)
Definition when (c : bool) (body : M unit) : M unit :=
  if c then body else ret tt.

Definition get_req : M Request.t := fun w => (Normal (req w), w).

(** [req.user = u]. *)
Definition set_req_user (u : User.t) : M unit :=
  fun w => (Normal tt, {| req := Request.set_user u (req w); trace := trace w |}).

(** [await supabaseAdmin.from(table)...eq('id', key).single()]. *)
Definition single {A : Type} (table : string)
    (lookup : jsval -> outcome (Query.result A)) (key : jsval)
  : M (Query.result A) :=
  fun w =>
    match lookup key with
    | Value r => (Normal r, emit (DbSingle table key) w)
    | Raises e => (Throw e, emit (DbSingle table key) w)
    end.

(** A call of an outside function that may throw. *)
Definition call {A : Type} (r : outcome A) : M A :=
  match r with
  | Value a => ret a
  | Raises e => throw e
  end.

(** An Express middleware: from the world before to what it did and the
    world after. *)
Definition Middleware : Type := World -> Action * World.

(** [try { body } catch (error) { handler }] as a whole function body.  The
    body has no normal completion: every path ends in a response or in
    [next()].  The handlers of this file log and answer; they do not throw. *)
Definition try_catch (body : M Empty_set) (handler : Err.t -> Middleware)
  : Middleware :=
  fun w =>
    match body w with
    | (Normal a, _) => match a with end
    | (Done act, w') => (act, w')
    | (Throw e, w') => handler e w'
    end.

(** [res.status(..).json(..)] in a handler. *)
Definition answer (status : nat) (error message : string) : Action :=
  Send {| Response.status := status;
          Response.error := error;
          Response.message := message |}.

(** ** The Token Verifier *)

(** [authHeader && authHeader.split(' ')[1]]. *)
Definition token_of (authHeader : jsval) : jsval :=
  match authHeader with
  | JStr h => if truthy authHeader then index (split " " h) 1 else authHeader
  | _ => authHeader
  end.

(** The [catch] block of [authenticateToken]. *)
Definition authenticateToken_catch (error : Err.t) : Middleware :=
  fun w =>
    let w := emit (LogError "Authentication error:" error) w in
    if String.eqb (Err.name error) "JsonWebTokenError" then
      (answer 401 "Invalid token" "The provided token is malformed", w)
    else if String.eqb (Err.name error) "TokenExpiredError" then
      (answer 401 "Token expired" "Please log in again", w)
    else
      (answer 500 "Authentication failed"
              "Internal server error during authentication", w).

Definition authenticateToken (verify : Verifier) (db : Database) : Middleware :=
  try_catch
    (r <- get_req ;;
     let authHeader := Request.authorization r in
     let token := token_of authHeader in
     if negb (truthy token) then
       reply 401 "Access token required"
             "Please provide a valid authentication token"
     else
       decoded <- call (verify token) ;;
       q <- single "users" (users db) (userId decoded) ;;
       match Query.error q, Query.data q with
       | None, Some user =>
           if negb (strict_eq (User.status user) (JStr "active")) then
             reply 403 "Account inactive" "Your account has been deactivated"
           else
             set_req_user user ;;
             next
       | _, _ =>
           reply 401 "Invalid token" "User not found or token expired"
       end)
    authenticateToken_catch.

(** ** The Role Gate *)

(** The argument of [requireRole]: an array of roles or anything else. *)
Inductive roles_arg : Type :=
| RolesArray (roles : list jsval)
| RolesOther (role : jsval).

(** [Array.isArray(roles) ? roles : [roles]]. *)
Definition allowedRoles (roles : roles_arg) : list jsval :=
  match roles with
  | RolesArray l => l
  | RolesOther r => [r]
  end.

Definition requireRole (roles : roles_arg) : Middleware :=
  fun w =>
    match Request.user (req w) with
    | None =>
        (answer 401 "Authentication required"
                "Please log in to access this resource", w)
    | Some user =>
        let userRole := User.role user in
        if negb (includes (allowedRoles roles) userRole) then
          (answer 403 "Insufficient permissions"
                  ("This action requires one of the following roles: "
                   ++ join ", " (allowedRoles roles)), w)
        else (Next, w)
    end.

(** ** The Ownership Gate *)

(** Lines 106-132: [if (workspaceId) { ... }]. *)
Definition workspaceCheck (db : Database) (userId : string)
    (workspaceId : jsval) : M unit :=
  when (truthy workspaceId)
    (q <- single "workspaces" (workspaces db) workspaceId ;;
     match Query.error q, Query.data q with
     | None, Some workspace =>
         let isOwner := String.eqb (Workspace.owner_id workspace) userId in
         let isMember :=
           existsb (fun member =>
                      String.eqb (Member.user_id member) userId
                      && strict_eq (Member.status member) (JStr "active"))
                   (Workspace.workspace_members workspace) in
         when (negb isOwner && negb isMember)
           (reply 403 "Access denied"
                  "You do not have access to this workspace")
     | _, _ =>
         reply 404 "Workspace not found"
               "The requested workspace does not exist"
     end).

(** [client.workspace?.owner_id]. *)
Definition nested_owner_id (client : Client.t) : jsval :=
  match Client.workspace client with
  | Some workspace => JStr (Nested.owner_id workspace)
  | None => JUndefined
  end.

(** Lines 135-167: [if (clientId) { ... }]. *)
Definition clientCheck (db : Database) (userId : string) (userRole : jsval)
    (clientId : jsval) : M unit :=
  when (truthy clientId)
    (q <- single "clients" (clients db) clientId ;;
     match Query.error q, Query.data q with
     | None, Some client =>
         when (strict_eq userRole (JStr "client")
               && negb (strict_eq (Client.user_id client) (JStr userId)))
           (reply 403 "Access denied"
                  "You can only access your own client data") ;;
         when (negb (strict_eq userRole (JStr "client")))
           (let workspaceOwnerId := nested_owner_id client in
            when (negb (strict_eq workspaceOwnerId (JStr userId)))
              (reply 403 "Access denied"
                     "You do not have access to this client"))
     | _, _ =>
         reply 404 "Client not found"
               "The requested client does not exist"
     end).

(** Reading [req.user.id] throws when [req.user] is [undefined]. *)
Definition type_error : Err.t :=
  {| Err.name := "TypeError";
     Err.message := "Cannot read properties of undefined (reading 'id')" |}.

(** The [catch] block of [requireWorkspaceAccess]. *)
Definition requireWorkspaceAccess_catch (error : Err.t) : Middleware :=
  fun w =>
    let w := emit (LogError "Workspace access check error:" error) w in
    (answer 500 "Access check failed"
            "Internal server error during access verification", w).

Definition requireWorkspaceAccess (db : Database) : Middleware :=
  try_catch
    (r <- get_req ;;
     let workspaceId := Request.workspaceId r in
     let clientId := Request.clientId r in
     match Request.user r with
     | None => throw type_error
     | Some user =>
         let userId := User.id user in
         let userRole := User.role user in
         if strict_eq userRole (JStr "admin") then next
         else
           workspaceCheck db userId workspaceId ;;
           clientCheck db userId userRole clientId ;;
           next
     end)
    requireWorkspaceAccess_catch.

(** ** Who may pass *)

(** The caller owns the workspace. *)
Definition is_owner (userId : string) (ws : Workspace.t) : Prop :=
  Workspace.owner_id ws = userId.

(** The caller has a membership of the workspace whose status is
    ['active']. *)
Definition is_active_member (userId : string) (ws : Workspace.t) : Prop :=
  exists m,
    In m (Workspace.workspace_members ws)
    /\ Member.user_id m = userId
    /\ Member.status m = JStr "active".

(** The caller owns the workspace nested in the client record. *)
Definition owns_client_workspace (userId : string) (c : Client.t) : Prop :=
  exists ws, Client.workspace c = Some ws /\ Nested.owner_id ws = userId.

(** What is left of the gate once the workspace block is behind: the client
    block and the final [next()], still inside the [try]. *)
Definition after_workspaceCheck (db : Database) (u : User.t) (clientId : jsval)
  : Middleware :=
  try_catch
    (clientCheck db (User.id u) (User.role u) clientId ;; next)
    requireWorkspaceAccess_catch.

(** ** Routes *)

(** The database lookups among the events of a trace. *)
Definition is_lookup (ev : Event) : bool :=
  match ev with
  | DbSingle _ _ => true
  | LogError _ _ => false
  end.

Definition lookups (evs : list Event) : list Event := filter is_lookup evs.

(** Whether the character [c] occurs in [s]. *)
Fixpoint has_char (c : ascii) (s : string) : bool :=
  match s with
  | EmptyString => false
  | String c' rest => Ascii.eqb c' c || has_char c rest
  end.

(** The middlewares of a route, [router.get(path, m1, m2, ..)], in the order
    they are listed: each one runs on the request as the one before left it,
    and the first response ends the run.  [Next] out of the last one is the
    call of the route's handler. *)
Fixpoint chain (ms : list Middleware) : Middleware :=
  fun w =>
    match ms with
    | [] => (Next, w)
    | m :: rest =>
        match m w with
        | (Next, w') => chain rest w'
        | (Send r, w') => (Send r, w')
        end
    end.

(** The workspace block has nothing against the caller [u]: there is no
    workspace id, or the workspace is found and [u] owns it or is an active
    member of it. *)
Definition workspace_ok (db : Database) (u : User.t) (workspaceId : jsval)
  : Prop :=
  truthy workspaceId = false
  \/ exists ws,
      workspaces db workspaceId = Value (Query.found ws)
      /\ (is_owner (User.id u) ws \/ is_active_member (User.id u) ws).

(** The client block has nothing against the caller [u]: there is no client
    id, or the client is found and it is [u]'s own record (for the role
    ['client']) or a record in a workspace that [u] owns (for the other
    roles). *)
Definition client_ok (db : Database) (u : User.t) (clientId : jsval)
  : Prop :=
  truthy clientId = false
  \/ exists c,
      clients db clientId = Value (Query.found c)
      /\ (User.role u = JStr "client" ->
          Client.user_id c = JStr (User.id u))
      /\ (User.role u <> JStr "client" ->
          owns_client_workspace (User.id u) c).

(** ** The error handler *)

(** The function [errorHandler (err, req, res, next)] that follows the three
    middlewares in the source file: the last stage of the pipeline, reached
    by [next(err)]. *)

(** The error object as the handler reads it.  [code] is compared with
    strings only, so a numeric code behaves like a string that matches no
    case.  [upstream] is the value of [err.response && err.response.status]
    when that is a number, [status] the value of [err.status] when that is a
    number; [None] stands for a missing field. *)
Module Failure.
Record t : Type :=
  { message : jsval;
    stack : jsval;
    code : jsval;
    name : jsval;
    details : jsval;
    upstream : option nat;
    status : option nat }.
End Failure.

(** The parts of [req] the handler reads. *)
Module Incoming.
Record t : Type :=
  { url : string; method : string; ip : jsval; userAgent : jsval;
    path : string }.
End Incoming.

(** What [logger.error('Error occurred:', { .. })] is given. *)
Module Logged.
Record t : Type :=
  { error : jsval; stack : jsval; url : string; method : string;
    ip : jsval; userAgent : jsval }.
End Logged.

(** The local [error] object: [{ status, message }], with a [details] field
    in the validation case. *)
Module Mapped.
Record t : Type :=
  { status : nat; message : jsval; details : option jsval }.
End Mapped.

(** The JSON body; [stack] and [details] are set in development only. *)
Module Body.
Record t : Type :=
  { error : jsval; timestamp : string; path : string;
    stack : option jsval; details : option jsval }.
End Body.

(** What the handler has done when it returns. *)
Module Handled.
Record t : Type := { logged : Logged.t; status : nat; body : Body.t }.
End Handled.

(** The truth value of a number: [0] is falsy. *)
Definition truthy_number (n : option nat) : bool :=
  match n with
  | Some 0 => false
  | Some _ => true
  | None => false
  end.

Definition mapped (status : nat) (message : string) : Mapped.t :=
  {| Mapped.status := status; Mapped.message := JStr message;
     Mapped.details := None |}.

(** [if (err.code) { switch (err.code) { .. } }]. *)
Definition by_code (err : Failure.t) (error : Mapped.t) : Mapped.t :=
  if truthy (Failure.code err) then
    if strict_eq (Failure.code err) (JStr "23505") then
      mapped 409 "Resource already exists"
    else if strict_eq (Failure.code err) (JStr "23503") then
      mapped 400 "Invalid reference to related resource"
    else if strict_eq (Failure.code err) (JStr "23502") then
      mapped 400 "Required field is missing"
    else if strict_eq (Failure.code err) (JStr "PGRST116") then
      mapped 404 "Resource not found"
    else error
  else error.

(** The three tests of [err.name]. *)
Definition by_name (err : Failure.t) (error : Mapped.t) : Mapped.t :=
  let error :=
    if strict_eq (Failure.name err) (JStr "ValidationError") then
      {| Mapped.status := 400; Mapped.message := JStr "Validation failed";
         Mapped.details := Some (Failure.details err) |}
    else error in
  let error :=
    if strict_eq (Failure.name err) (JStr "JsonWebTokenError") then
      mapped 401 "Invalid authentication token"
    else error in
  if strict_eq (Failure.name err) (JStr "TokenExpiredError") then
    mapped 401 "Authentication token expired"
  else error.

(** [v === n] for a field that holds a number or is missing. *)
Definition is_number (v : option nat) (n : nat) : bool :=
  match v with
  | Some m => Nat.eqb m n
  | None => false
  end.

(** [if (err.response && err.response.status) { .. }]. *)
Definition by_upstream (err : Failure.t) (error : Mapped.t) : Mapped.t :=
  if truthy_number (Failure.upstream err) then
    if is_number (Failure.upstream err) 429 then
      mapped 429 "AI service rate limit exceeded. Please try again later."
    else if is_number (Failure.upstream err) 401 then
      mapped 500 "AI service configuration error"
    else error
  else error.

(** [if (err.status) { error.status = err.status; error.message =
    err.message; }]. *)
Definition by_status (err : Failure.t) (error : Mapped.t) : Mapped.t :=
  if truthy_number (Failure.status err) then
    match Failure.status err with
    | Some n =>
        {| Mapped.status := n; Mapped.message := Failure.message err;
           Mapped.details := Mapped.details error |}
    | None => error
    end
  else error.

(** [node_env] is [process.env.NODE_ENV] and [now] is
    [new Date().toISOString()]. *)
Definition errorHandler (node_env : jsval) (now : string) (err : Failure.t)
    (req : Incoming.t) : Handled.t :=
  let logged :=
    {| Logged.error := Failure.message err;
       Logged.stack := Failure.stack err;
       Logged.url := Incoming.url req;
       Logged.method := Incoming.method req;
       Logged.ip := Incoming.ip req;
       Logged.userAgent := Incoming.userAgent req |} in
  let error := mapped 500 "Internal Server Error" in
  let error := by_code err error in
  let error := by_name err error in
  let error := by_upstream err error in
  let error := by_status err error in
  let development := strict_eq node_env (JStr "development") in
  {| Handled.logged := logged;
     Handled.status := Mapped.status error;
     Handled.body :=
       {| Body.error := Mapped.message error;
          Body.timestamp := now;
          Body.path := Incoming.path req;
          Body.stack := if development then Some (Failure.stack err) else None;
          Body.details :=
            if development then Some (Failure.details err) else None |} |}.

(** The statuses and messages the handler has of its own. *)
Definition own_answers : list (nat * jsval) :=
  [ (500, JStr "Internal Server Error");
    (409, JStr "Resource already exists");
    (400, JStr "Invalid reference to related resource");
    (400, JStr "Required field is missing");
    (404, JStr "Resource not found");
    (400, JStr "Validation failed");
    (401, JStr "Invalid authentication token");
    (401, JStr "Authentication token expired");
    (429, JStr "AI service rate limit exceeded. Please try again later.");
    (500, JStr "AI service configuration error") ].

(** ** The handlers of [routes/users.js] *)

(** The routes that stand behind [authenticateToken] read [req.user] in
    their handlers.  Each handler is one [try { .. } catch (error) {
    next(error) }]: it sends a JSON answer or hands an error to the error
    handler.  The Supabase calls and the clock are arguments. *)

(** What a Supabase call resolves to, with the error as the error handler
    will read it. *)
Module Pg.
Record result (A : Type) : Type :=
  { data : option A; error : option Failure.t }.
Arguments data {A} r.
Arguments error {A} r.

Definition found {A : Type} (a : A) : result A :=
  {| data := Some a; error := None |}.

Definition failed {A : Type} (e : Failure.t) : result A :=
  {| data := None; error := Some e |}.
End Pg.

(** An awaited call: the promise resolves or rejects. *)
Inductive awaited (A : Type) : Type :=
| Resolved (r : Pg.result A)
| Rejected (e : Failure.t).
Arguments Resolved {A} r.
Arguments Rejected {A} e.

(** A field of a JSON request body: text, [null] or missing, or a value of
    another kind (number, boolean, array, object), of which the handlers
    use the truth value only. *)
Inductive body_value : Type :=
| Js (v : jsval)
| NotText (truth : bool).

Definition truthy_body (v : body_value) : bool :=
  match v with
  | Js v => truthy v
  | NotText truth => truth
  end.

(** [v !== s] for a column [s] that holds text. *)
Definition differs (v : body_value) (s : string) : bool :=
  match v with
  | Js v => negb (strict_eq v (JStr s))
  | NotText _ => true
  end.

(** The row that the handlers select before they change or delete a
    user. *)
Module Existing.
Record t : Type := { email : string }.
End Existing.

(** The body of [PUT /:id]. *)
Module UpdateBody.
Record t : Type :=
  { firstName : body_value;
    lastName : body_value;
    email : body_value;
    role : body_value;
    status : body_value;
    timezone : body_value;
    avatarUrl : body_value }.
End UpdateBody.

(** The object [updateData]; [None] is a key that was not set. *)
Module UpdateData.
Record t : Type :=
  { updated_at : string;
    first_name : option string;
    last_name : option string;
    email : option string;
    timezone : option body_value;
    avatar_url : option body_value;
    role : option body_value;
    status : option body_value }.
End UpdateData.

(** What a handler does to the outside. *)
Inductive Op : Type :=
| SelectUser (id : string)
| SelectOtherWithEmail (email : body_value) (id : string)
| UpdateUser (id : string) (data : UpdateData.t)
| DeleteUser (id : string)
| SelectActiveRoles
| SelectStatuses
| SelectCreatedSince (cutoff : Z)
| Info (text : string).

(** How a handler ends: [res.status(..).json({ error, message })],
    [res.json({ success: true, .. })] or [next(error)]. *)
Inductive Reply (D : Type) : Type :=
| Fail (status : nat) (error message : string)
| Success (message : option string) (data : D)
| NextError (e : Failure.t).
Arguments Fail {D} status error message.
Arguments Success {D} message data.
Arguments NextError {D} e.

(** A block of a handler: it goes on with a value or the handler has
    ended. *)
Definition H (D A : Type) : Type := list Op -> (A + Reply D) * list Op.

Definition hret {D A : Type} (a : A) : H D A := fun ops => (inl a, ops).

Definition hbind {D A B : Type} (m : H D A) (k : A -> H D B) : H D B :=
  fun ops =>
    match m ops with
    | (inl a, ops') => k a ops'
    | (inr reply, ops') => (inr reply, ops')
    end.

Declare Scope handler_scope.
Notation "x <- m ;; k" := (hbind m (fun x => k))
  (at level 100, m at next level, right associativity) : handler_scope.
Notation "m ;; k" := (hbind m (fun _ => k))
  (at level 100, right associativity) : handler_scope.
Open Scope handler_scope.

(** The handler answers and returns. *)
Definition hstop {D A : Type} (reply : Reply D) : H D A :=
  fun ops => (inr reply, ops).

(** A statement that throws inside the [try]: the [catch] calls
    [next(error)]. *)
Definition hthrow {D A : Type} (e : Failure.t) : H D A :=
  hstop (NextError e).

Definition hdo {D : Type} (op : Op) : H D unit :=
  fun ops => (inl tt, (ops ++ [op])%list).

(** [await] of a Supabase call. *)
Definition hawait {D A : Type} (op : Op) (call : awaited A)
  : H D (Pg.result A) :=
  fun ops =>
    match call with
    | Resolved r => (inl r, (ops ++ [op])%list)
    | Rejected e => (inr (NextError e), (ops ++ [op])%list)
    end.

(** A whole handler, from no operation done. *)
Definition serve {D : Type} (body : H D Empty_set) : Reply D * list Op :=
  match body [] with
  | (inl a, _) => match a with end
  | (inr reply, ops) => (reply, ops)
  end.

(** A [TypeError] as the error handler will read it. *)
Definition type_failure (message : string) : Failure.t :=
  {| Failure.message := JStr message;
     Failure.stack := JStr ("TypeError: " ++ message);
     Failure.code := JUndefined;
     Failure.name := JStr "TypeError";
     Failure.details := JUndefined;
     Failure.upstream := None;
     Failure.status := None |}.

(** [req.user], whose fields a handler reads first: without an identity
    the read throws. *)
Definition current_user {D : Type} (user : option User.t) : H D User.t :=
  match user with
  | Some u => hret u
  | None =>
      hthrow (type_failure "Cannot read properties of undefined (reading 'id')")
  end.

(** [GET /:id], lines 119-156. *)
Definition getUserById {R : Type} (select : string -> awaited R)
    (id : string) (user : option User.t) : Reply (option R) * list Op :=
  serve
    (current <- current_user user ;;
     let currentUserId := User.id current in
     let currentUserRole := User.role current in
     if negb (String.eqb id currentUserId)
        && negb (strict_eq currentUserRole (JStr "admin")) then
       hstop (Fail 403 "Access denied" "You can only view your own profile")
     else
       q <- hawait (SelectUser id) (select id) ;;
       match Pg.error q with
       | Some error =>
           if strict_eq (Failure.code error) (JStr "PGRST116") then
             hstop (Fail 404 "User not found"
                         "The requested user does not exist")
           else hthrow error
       | None => hstop (Success None (Pg.data q))
       end).

(** [DELETE /:id], lines 423-469. *)
Definition deleteUser (select : string -> awaited Existing.t)
    (delete : string -> awaited unit) (id : string) (user : option User.t)
  : Reply unit * list Op :=
  serve
    (current <- current_user user ;;
     let currentUserId := User.id current in
     if String.eqb id currentUserId then
       hstop (Fail 400 "Cannot delete own account"
                   "You cannot delete your own account")
     else
       q <- hawait (SelectUser id) (select id) ;;
       match Pg.error q, Pg.data q with
       | None, Some existingUser =>
           d <- hawait (DeleteUser id) (delete id) ;;
           match Pg.error d with
           | Some error => hthrow error
           | None =>
               hdo (Info ("User deleted: " ++ id ++ " ("
                          ++ Existing.email existingUser ++ ") by admin "
                          ++ currentUserId)) ;;
               hstop (Success (Some "User deleted successfully") tt)
           end
       | _, _ =>
           hstop (Fail 404 "User not found"
                       "The requested user does not exist")
       end).

(** The string methods the update uses. *)
Record Builtins : Type :=
  { trim : string -> string; toLowerCase : string -> string }.

(** [v.method()] on a body field that is truthy: a value that is not text
    has no such method, and the call throws. *)
Definition text_of {D : Type} (v : body_value) (method : string)
  : H D string :=
  match v with
  | Js (JStr s) => hret s
  | _ => hthrow (type_failure (method ++ " is not a function"))
  end.

(** [if (v) updateData.key = v]. *)
Definition given (v : body_value) : option body_value :=
  if truthy_body v then Some v else None.

(** [PUT /:id], lines 198-291.  [now] is [new Date().toISOString()]. *)
Definition updateUser {R : Type} (js : Builtins)
    (select : string -> awaited Existing.t)
    (selectOther : body_value -> string -> awaited unit)
    (update : string -> UpdateData.t -> awaited R)
    (now : string) (id : string) (user : option User.t)
    (body : UpdateBody.t) : Reply (option R) * list Op :=
  serve
    (current <- current_user user ;;
     let currentUserId := User.id current in
     let currentUserRole := User.role current in
     let firstName := UpdateBody.firstName body in
     let lastName := UpdateBody.lastName body in
     let email := UpdateBody.email body in
     let role := UpdateBody.role body in
     let status := UpdateBody.status body in
     let timezone := UpdateBody.timezone body in
     let avatarUrl := UpdateBody.avatarUrl body in
     if negb (String.eqb id currentUserId)
        && negb (strict_eq currentUserRole (JStr "admin")) then
       hstop (Fail 403 "Access denied"
                   "You can only update your own profile")
     else if (truthy_body role || truthy_body status)
             && negb (strict_eq currentUserRole (JStr "admin")) then
       hstop (Fail 403 "Access denied"
                   "Only administrators can change user roles and status")
     else
       q <- hawait (SelectUser id) (select id) ;;
       match Pg.error q, Pg.data q with
       | None, Some existingUser =>
           (if truthy_body email
               && differs email (Existing.email existingUser) then
              c <- hawait (SelectOtherWithEmail email id)
                     (selectOther email id) ;;
              match Pg.data c with
              | Some _ =>
                  hstop (Fail 409 "Email already exists"
                              "Another user is already using this email address")
              | None => hret tt
              end
            else hret tt) ;;
           first_name <-
             (if truthy_body firstName then
                s <- text_of firstName "firstName.trim" ;;
                hret (Some (trim js s))
              else hret None) ;;
           last_name <-
             (if truthy_body lastName then
                s <- text_of lastName "lastName.trim" ;;
                hret (Some (trim js s))
              else hret None) ;;
           new_email <-
             (if truthy_body email then
                s <- text_of email "email.toLowerCase" ;;
                hret (Some (trim js (toLowerCase js s)))
              else hret None) ;;
           let admin := strict_eq currentUserRole (JStr "admin") in
           let updateData :=
             {| UpdateData.updated_at := now;
                UpdateData.first_name := first_name;
                UpdateData.last_name := last_name;
                UpdateData.email := new_email;
                UpdateData.timezone := given timezone;
                UpdateData.avatar_url := given avatarUrl;
                UpdateData.role := if admin then given role else None;
                UpdateData.status := if admin then given status else None |} in
           r <- hawait (UpdateUser id updateData) (update id updateData) ;;
           match Pg.error r with
           | Some error => hthrow error
           | None =>
               hdo (Info ("User updated: " ++ id ++ " by user "
                          ++ currentUserId)) ;;
               hstop (Success (Some "User updated successfully") (Pg.data r))
           end
       | _, _ =>
           hstop (Fail 404 "User not found"
                       "The requested user does not exist")
       end).

(** The names that every object inherits from [Object.prototype]. *)
Definition inherited_names : list string :=
  [ "constructor"; "__proto__"; "hasOwnProperty"; "isPrototypeOf";
    "propertyIsEnumerable"; "toLocaleString"; "toString"; "valueOf";
    "__defineGetter__"; "__defineSetter__"; "__lookupGetter__";
    "__lookupSetter__" ].

Definition inherited (k : string) : bool :=
  existsb (String.eqb k) inherited_names.

(** The property key that a column value is used as. *)
Definition key_of (v : jsval) : string :=
  match v with
  | JStr s => s
  | JNull => "null"
  | JUndefined => "undefined"
  end.

(** The accumulator of [rows.reduce(.., {})]: the properties it has got
    under names that are not inherited, newest first.  Under an inherited
    name [acc[k]] is a function or an object, [(acc[k] || 0) + 1] is text,
    and what is stored there is no count; the handler reads no such name,
    so these properties are left out. *)
Definition own (acc : list (string * nat)) (k : string) : option nat :=
  match find (fun entry => String.eqb (fst entry) k) acc with
  | Some entry => Some (snd entry)
  | None => None
  end.

(** [acc[k] || 0], also [counts.k || 0]. *)
Definition count_of (acc : list (string * nat)) (k : string) : nat :=
  match own acc k with
  | Some n => n
  | None => 0
  end.

(** [acc[v] = (acc[v] || 0) + 1]. *)
Definition bump (acc : list (string * nat)) (v : jsval)
  : list (string * nat) :=
  let k := key_of v in
  if inherited k then acc else (k, count_of acc k + 1) :: acc.

Definition tally (values : list jsval) : list (string * nat) :=
  fold_left bump values [].

(** The statistics that [GET /stats] sends. *)
Module Distribution.
Record t : Type := { admin : nat; agency : nat; creator : nat; client : nat }.
End Distribution.

Module Stats.
Record t : Type :=
  { totalUsers : nat;
    activeUsers : nat;
    inactiveUsers : nat;
    suspendedUsers : nat;
    roleDistribution : Distribution.t;
    recentRegistrations : nat;
    generatedAt : string }.
End Stats.

(** [GET /stats], lines 480-545.  A row of [select('role')] or
    [select('status')] is given by its one column.  [activeRoles] is the
    query of the roles of the active users, [statuses] the query of all
    statuses, [createdSince] the query of the rows created since a time in
    milliseconds; [now_ms] is [Date.now()] and [now] is
    [new Date().toISOString()]. *)
Definition getUserStats {R : Type} (activeRoles : awaited (list jsval))
    (statuses : awaited (list jsval))
    (createdSince : Z -> awaited (list R)) (now_ms : Z) (now : string)
  : Reply Stats.t * list Op :=
  serve
    (q1 <- hawait SelectActiveRoles activeRoles ;;
     match Pg.error q1 with
     | Some roleError => hthrow roleError
     | None =>
     q2 <- hawait SelectStatuses statuses ;;
     match Pg.error q2 with
     | Some statusError => hthrow statusError
     | None =>
     let thirtyDaysAgo := (now_ms - 30 * 24 * 60 * 60 * 1000)%Z in
     q3 <- hawait (SelectCreatedSince thirtyDaysAgo)
             (createdSince thirtyDaysAgo) ;;
     match Pg.error q3 with
     | Some recentError => hthrow recentError
     | None =>
     match Pg.data q1 with
     | None =>
         hthrow (type_failure
                   "Cannot read properties of null (reading 'reduce')")
     | Some roleStats =>
     let roleCounts := tally roleStats in
     match Pg.data q2 with
     | None =>
         hthrow (type_failure
                   "Cannot read properties of null (reading 'reduce')")
     | Some statusStats =>
     let statusCounts := tally statusStats in
     match Pg.data q3 with
     | None =>
         hthrow (type_failure
                   "Cannot read properties of null (reading 'length')")
     | Some recentUsers =>
         hstop
           (Success None
              {| Stats.totalUsers := length statusStats;
                 Stats.activeUsers := count_of statusCounts "active";
                 Stats.inactiveUsers := count_of statusCounts "inactive";
                 Stats.suspendedUsers := count_of statusCounts "suspended";
                 Stats.roleDistribution :=
                   {| Distribution.admin := count_of roleCounts "admin";
                      Distribution.agency := count_of roleCounts "agency";
                      Distribution.creator := count_of roleCounts "creator";
                      Distribution.client := count_of roleCounts "client" |};
                 Stats.recentRegistrations := length recentUsers;
                 Stats.generatedAt := now |})
     end end end end end end).

(** How often the value [v] occurs in a column. *)
Definition occurrences (v : jsval) (column : list jsval) : nat :=
  length (filter (strict_eq v) column).

Close Scope handler_scope.

(** [DELETE /:id] with its guards, line 423: [authenticateToken],
    [requireRole(['admin'])], [validateObjectId], then the handler.  The
    validator comes from [express-validator] and is an argument here. *)
Definition deleteUserRoute (verify : Verifier) (db : Database)
    (validateObjectId : Middleware)
    (select : string -> awaited Existing.t)
    (delete : string -> awaited unit) (id : string)
  : World -> Response.t + Reply unit * list Op :=
  fun w =>
    match chain [authenticateToken verify db;
                 requireRole (RolesArray [JStr "admin"]);
                 validateObjectId] w with
    | (Send r, _) => inl r
    | (Next, w') => inr (deleteUser select delete id (Request.user (req w')))
    end.

(** ** Sample data *)

Module Sample.
Definition u1 : string := "11111111-1111-4111-8111-111111111111".
Definition u2 : string := "22222222-2222-4222-8222-222222222222".
Definition u3 : string := "33333333-3333-4333-8333-333333333333".
Definition w1 : string := "aaaaaaaa-aaaa-4aaa-8aaa-aaaaaaaaaaaa".
Definition w9 : string := "99999999-9999-4999-8999-999999999999".
Definition c1 : string := "cccccccc-cccc-4ccc-8ccc-cccccccccccc".
Definition c2 : string := "dddddddd-dddd-4ddd-8ddd-dddddddddddd".

Definition user (id role status : string) : User.t :=
  {| User.id := id; User.role := JStr role; User.status := JStr status |}.

(** What [.single()] reports when no row matches. *)
Definition no_rows : Err.t :=
  {| Err.name := "PostgrestError";
     Err.message := "JSON object requested, multiple (or no) rows returned" |}.

Definition missing {A : Type} : outcome (Query.result A) :=
  Value {| Query.data := None; Query.error := Some no_rows |}.

(** Workspace [w1]: owned by [u1]; [u2] is an active member and [u3] a
    pending one. *)
Definition workspace1 : Workspace.t :=
  {| Workspace.owner_id := u1;
     Workspace.workspace_members :=
       [ {| Member.user_id := u2; Member.status := JStr "active" |};
         {| Member.user_id := u3; Member.status := JStr "pending" |} ] |}.

(** Client [c1]: created by [u3], linked to the login [u2], grouped under
    the workspace of [u1].  Client [c2]: created by [u3], no login, no
    workspace. *)
Definition client1 : Client.t :=
  {| Client.user_id := JStr u2;
     Client.creator_id := u3;
     Client.workspace := Some {| Nested.owner_id := u1 |} |}.

Definition client2 : Client.t :=
  {| Client.user_id := JNull;
     Client.creator_id := u3;
     Client.workspace := None |}.

Definition db : Database :=
  {| users := fun key =>
       if strict_eq key (JStr u1) then Value (Query.found (user u1 "creator" "active"))
       else if strict_eq key (JStr u2) then Value (Query.found (user u2 "client" "active"))
       else if strict_eq key (JStr u3) then Value (Query.found (user u3 "agency" "suspended"))
       else missing;
     workspaces := fun key =>
       if strict_eq key (JStr w1) then Value (Query.found workspace1)
       else missing;
     clients := fun key =>
       if strict_eq key (JStr c1) then Value (Query.found client1)
       else if strict_eq key (JStr c2) then Value (Query.found client2)
       else missing |}.

(** A database whose connection is down: every lookup reports an error. *)
Definition unreachable : Err.t :=
  {| Err.name := "FetchError"; Err.message := "fetch failed" |}.

Definition down : Database :=
  {| users := fun _ => Value {| Query.data := None; Query.error := Some unreachable |};
     workspaces := fun _ => Value {| Query.data := None; Query.error := Some unreachable |};
     clients := fun _ => Value {| Query.data := None; Query.error := Some unreachable |} |}.

(** A verifier that accepts the tokens [tok-<n>] of the three users,
    reports [expired] as expired and everything else as malformed. *)
Definition verify : Verifier :=
  fun token =>
    if strict_eq token (JStr "tok-1") then Value {| userId := JStr u1 |}
    else if strict_eq token (JStr "tok-2") then Value {| userId := JStr u2 |}
    else if strict_eq token (JStr "tok-3") then Value {| userId := JStr u3 |}
    else if strict_eq token (JStr "tok-gone") then Value {| userId := JStr w9 |}
    else if strict_eq token (JStr "expired") then
      Raises {| Err.name := "TokenExpiredError"; Err.message := "jwt expired" |}
    else
      Raises {| Err.name := "JsonWebTokenError"; Err.message := "jwt malformed" |}.

(** A token whose [nbf] lies in the future: [jwt.verify] throws a
    [NotBeforeError]. *)
Definition not_before : Err.t :=
  {| Err.name := "NotBeforeError"; Err.message := "jwt not active" |}.

Definition verify_early : Verifier := fun _ => Raises not_before.

(** A client whose requests are rejected: every awaited lookup throws. *)
Definition rejected : Err.t :=
  {| Err.name := "Error"; Err.message := "socket hang up" |}.

Definition rejecting : Database :=
  {| users := fun _ => Raises rejected;
     workspaces := fun _ => Raises rejected;
     clients := fun _ => Raises rejected |}.

(** The request of a failed call and three errors: a plain exception, a
    rejected call to the AI service and a row that breaks a unique
    constraint. *)
Definition incoming : Incoming.t :=
  {| Incoming.url := "/api/content?page=2";
     Incoming.method := "GET";
     Incoming.ip := JStr "203.0.113.7";
     Incoming.userAgent := JUndefined;
     Incoming.path := "/api/content" |}.

Definition failure (message : string) (code name : jsval)
    (upstream status : option nat) : Failure.t :=
  {| Failure.message := JStr message;
     Failure.stack := JStr ("Error: " ++ message ++ " at handler.js:10:5");
     Failure.code := code;
     Failure.name := name;
     Failure.details := JUndefined;
     Failure.upstream := upstream;
     Failure.status := status |}.

Definition crash : Failure.t :=
  failure "connect ECONNREFUSED 10.0.0.5:5432" (JStr "ECONNREFUSED")
    (JStr "Error") None None.

Definition bad_key : Failure.t :=
  failure "Request failed with status code 401" (JStr "ERR_BAD_REQUEST")
    (JStr "AxiosError") (Some 401) None.

Definition duplicate : Failure.t :=
  failure "duplicate key value violates unique constraint users_email_key"
    (JStr "23505") JUndefined None None.

Definition teapot : Failure.t :=
  failure "I am a teapot" JUndefined (JStr "Error") None (Some 418).

(** The users table as the handlers of [routes/users.js] see it: [u1], [u2]
    and [u3] exist, the mail address of [u2] is taken, and every write goes
    through. *)
Definition select : string -> awaited Existing.t :=
  fun id =>
    if String.eqb id u1 then Resolved (Pg.found {| Existing.email := "ann@example.com" |})
    else if String.eqb id u2 then Resolved (Pg.found {| Existing.email := "bob@example.com" |})
    else if String.eqb id u3 then Resolved (Pg.found {| Existing.email := "cy@example.com" |})
    else Resolved (Pg.failed (failure "no rows" (JStr "PGRST116") JUndefined None None)).

Definition selectOther : body_value -> string -> awaited unit :=
  fun email id =>
    if negb (differs email "bob@example.com") && negb (String.eqb id u2)
    then Resolved (Pg.found tt)
    else Resolved (Pg.failed (failure "no rows" (JStr "PGRST116") JUndefined None None)).

Definition update : string -> UpdateData.t -> awaited UpdateData.t :=
  fun _ data => Resolved (Pg.found data).

Definition delete : string -> awaited unit :=
  fun _ => Resolved {| Pg.data := None; Pg.error := None |}.

(** String methods that leave text as it is: enough for text that is
    trimmed and in lower case already. *)
Definition builtins : Builtins :=
  {| trim := fun s => s; toLowerCase := fun s => s |}.

Definition body (email role : body_value) : UpdateBody.t :=
  {| UpdateBody.firstName := Js (JStr "Ann");
     UpdateBody.lastName := Js JUndefined;
     UpdateBody.email := email;
     UpdateBody.role := role;
     UpdateBody.status := Js JUndefined;
     UpdateBody.timezone := Js (JStr "Europe/London");
     UpdateBody.avatarUrl := Js JNull |}.

(** A user row for an admin, and a validator that lets every id pass. *)
Definition db_admin : Database :=
  {| users := fun key =>
       if strict_eq key (JStr u1) then Value (Query.found (user u1 "admin" "active"))
       else users db key;
     workspaces := workspaces db;
     clients := clients db |}.

Definition pass : Middleware := fun w => (Next, w).

(** What the three queries of [GET /stats] give for five users: one of
    them has no status, and the role of one active user is a word that
    names a property of every object. *)
Definition statuses : awaited (list jsval) :=
  Resolved (Pg.found [JStr "active"; JStr "suspended"; JNull; JStr "active";
                      JStr "active"]).

Definition activeRoles : awaited (list jsval) :=
  Resolved (Pg.found [JStr "creator"; JStr "constructor"; JStr "creator"]).

Definition createdSince : Z -> awaited (list unit) :=
  fun cutoff =>
    if (cutoff <=? 1752434535000)%Z then Resolved (Pg.found [tt; tt])
    else Resolved (Pg.found []).

Definition stats : Stats.t :=
  {| Stats.totalUsers := 5;
     Stats.activeUsers := 3;
     Stats.inactiveUsers := 0;
     Stats.suspendedUsers := 1;
     Stats.roleDistribution :=
       {| Distribution.admin := 0;
          Distribution.agency := 0;
          Distribution.creator := 2;
          Distribution.client := 0 |};
     Stats.recentRegistrations := 2;
     Stats.generatedAt := "2025-08-12T19:22:15.000Z" |}.

(** An admin whose uuid has letters, the same uuid in capitals, and a users
    table that, like a column of type uuid, finds the row under either
    spelling. *)
Definition ua : string := "abcdef00-0000-4000-8000-00000000000a".

Definition ua_capitals : string := "ABCDEF00-0000-4000-8000-00000000000A".

Definition select_uuid : string -> awaited Existing.t :=
  fun id =>
    if String.eqb id ua || String.eqb id ua_capitals
    then Resolved (Pg.found {| Existing.email := "root@example.com" |})
    else select id.

Definition request (authorization workspaceId clientId : jsval)
    (user : option User.t) : World :=
  {| req := {| Request.authorization := authorization;
               Request.workspaceId := workspaceId;
               Request.clientId := clientId;
               Request.user := user |};
     trace := [] |}.
End Sample.

(** A few runs on the sample data. *)

Example split_bearer : split " " "Bearer tok-1" = ["Bearer"; "tok-1"].
Proof. reflexivity. Qed.

Example token_of_scheme_only : token_of (JStr "Bearer") = JUndefined.
Proof. reflexivity. Qed.

Example token_of_trailing_space : token_of (JStr "Bearer ") = JStr "".
Proof. reflexivity. Qed.

Example run_creator_owns_workspace :
  requireWorkspaceAccess Sample.db
    (Sample.request JUndefined (JStr Sample.w1) JUndefined
       (Some (Sample.user Sample.u1 "creator" "active")))
  = (Next,
     {| req := req (Sample.request JUndefined (JStr Sample.w1) JUndefined
                      (Some (Sample.user Sample.u1 "creator" "active")));
        trace := [DbSingle "workspaces" (JStr Sample.w1)] |}).
Proof. reflexivity. Qed.

Example run_client_other_login :
  fst (requireWorkspaceAccess Sample.db
         (Sample.request JUndefined JUndefined (JStr Sample.c1)
            (Some (Sample.user Sample.u3 "client" "active"))))
  = answer 403 "Access denied" "You can only access your own client data".
Proof. reflexivity. Qed.

Example run_missing_workspace :
  fst (requireWorkspaceAccess Sample.db
         (Sample.request JUndefined (JStr Sample.w9) JUndefined
            (Some (Sample.user Sample.u1 "creator" "active"))))
  = answer 404 "Workspace not found" "The requested workspace does not exist".
Proof. reflexivity. Qed.

Example run_no_identity :
  fst (requireWorkspaceAccess Sample.db
         (Sample.request JUndefined (JStr Sample.w1) JUndefined None))
  = answer 500 "Access check failed"
      "Internal server error during access verification".
Proof. reflexivity. Qed.

Example run_verify_attaches_identity :
  let w := Sample.request (JStr "Bearer tok-1") JUndefined JUndefined None in
  let '(act, w') := authenticateToken Sample.verify Sample.db w in
  act = Next
  /\ Request.user (req w') = Some (Sample.user Sample.u1 "creator" "active")
  /\ trace w' = [DbSingle "users" (JStr Sample.u1)].
Proof. repeat split. Qed.

Example run_verify_suspended :
  fst (authenticateToken Sample.verify Sample.db
         (Sample.request (JStr "Bearer tok-3") JUndefined JUndefined None))
  = answer 403 "Account inactive" "Your account has been deactivated".
Proof. reflexivity. Qed.

(** ** Comparisons as propositions *)

Lemma strict_eq_true (a b : jsval) : strict_eq a b = true <-> a = b.
Proof.
  destruct a, b; simpl; split; intros H;
    try reflexivity; try discriminate.
  - apply String.eqb_eq in H. now subst.
  - inversion H. apply String.eqb_refl.
Qed.

Lemma strict_eq_false (a b : jsval) : strict_eq a b = false <-> a <> b.
Proof.
  rewrite <- strict_eq_true. destruct (strict_eq a b); split;
    intros H; try reflexivity; try discriminate; congruence.
Qed.

Lemma includes_In (arr : list jsval) (v : jsval) :
  includes arr v = true <-> In v arr.
Proof.
  unfold includes. rewrite existsb_exists. split.
  - intros (x & Hin & Heq). apply strict_eq_true in Heq. now subst.
  - intros Hin. exists v. split; [assumption | now apply strict_eq_true].
Qed.

Lemma some_active_member (userId : string) (ws : Workspace.t) :
  existsb (fun member =>
             String.eqb (Member.user_id member) userId
             && strict_eq (Member.status member) (JStr "active"))
          (Workspace.workspace_members ws) = true
  <-> is_active_member userId ws.
Proof.
  unfold is_active_member. rewrite existsb_exists.
  split; intros (m & Hin & H); exists m; split; try assumption.
  - apply andb_true_iff in H. destruct H as [Hu Hs].
    apply String.eqb_eq in Hu. apply strict_eq_true in Hs. now split.
  - destruct H as [Hu Hs]. apply andb_true_iff. split.
    + now apply String.eqb_eq.
    + now apply strict_eq_true.
Qed.

(** ** The Ownership Gate, block by block *)

(** For a caller who is not an admin the gate is its two blocks in a row. *)
Lemma gate_blocks (db : Database) (w : World) (u : User.t) :
  Request.user (req w) = Some u ->
  User.role u <> JStr "admin" ->
  requireWorkspaceAccess db w
  = try_catch
      (workspaceCheck db (User.id u) (Request.workspaceId (req w)) ;;
       clientCheck db (User.id u) (User.role u) (Request.clientId (req w)) ;;
       next)
      requireWorkspaceAccess_catch w.
Proof.
  intros Hu Hrole. apply strict_eq_false in Hrole.
  unfold requireWorkspaceAccess, try_catch, bind, get_req.
  rewrite Hu, Hrole. reflexivity.
Qed.

(** A request that passes the workspace block goes on with the client
    block. *)
Lemma gate_past_workspace (db : Database) (w w1 : World) (u : User.t) :
  Request.user (req w) = Some u ->
  User.role u <> JStr "admin" ->
  workspaceCheck db (User.id u) (Request.workspaceId (req w)) w
  = (Normal tt, w1) ->
  requireWorkspaceAccess db w
  = after_workspaceCheck db u (Request.clientId (req w)) w1.
Proof.
  intros Hu Hrole Hws. rewrite (gate_blocks db w u Hu Hrole).
  unfold after_workspaceCheck, try_catch, bind. rewrite Hws. reflexivity.
Qed.

(** A response of the workspace block is the response of the gate. *)
Lemma gate_stops_at_workspace (db : Database) (w w1 : World) (u : User.t)
    (act : Action) :
  Request.user (req w) = Some u ->
  User.role u <> JStr "admin" ->
  workspaceCheck db (User.id u) (Request.workspaceId (req w)) w
  = (Done act, w1) ->
  requireWorkspaceAccess db w = (act, w1).
Proof.
  intros Hu Hrole Hws. rewrite (gate_blocks db w u Hu Hrole).
  unfold try_catch, bind. rewrite Hws. reflexivity.
Qed.

(** The workspace block does nothing without a workspace id. *)
Lemma workspaceCheck_skipped (db : Database) (userId : string)
    (workspaceId : jsval) (w : World) :
  truthy workspaceId = false ->
  workspaceCheck db userId workspaceId w = (Normal tt, w).
Proof. intros H. unfold workspaceCheck. rewrite H. reflexivity. Qed.

(** The workspace block never calls [next()] itself. *)
Lemma workspaceCheck_not_next (db : Database) (userId : string)
    (workspaceId : jsval) (w : World) :
  fst (workspaceCheck db userId workspaceId w) <> Done Next.
Proof.
  unfold workspaceCheck, when, bind, single.
  destruct (truthy workspaceId); [| discriminate].
  destruct (workspaces db workspaceId) as [[data error] | e];
    [| discriminate].
  destruct error; [discriminate |].
  destruct data; [| discriminate].
  cbn. destruct (negb _ && negb _); discriminate.
Qed.

(** Both blocks must pass: when the gate calls [next()] for a caller who is
    not an admin, the workspace block was passed and the rest of the gate
    called [next()]. *)
Lemma gate_next_needs_both (db : Database) (w : World) (u : User.t) :
  Request.user (req w) = Some u ->
  User.role u <> JStr "admin" ->
  fst (requireWorkspaceAccess db w) = Next ->
  exists w1,
    workspaceCheck db (User.id u) (Request.workspaceId (req w)) w
    = (Normal tt, w1)
    /\ fst (after_workspaceCheck db u (Request.clientId (req w)) w1) = Next.
Proof.
  intros Hu Hrole. rewrite (gate_blocks db w u Hu Hrole).
  pose proof (workspaceCheck_not_next db (User.id u)
                (Request.workspaceId (req w)) w) as Hnot.
  unfold after_workspaceCheck, try_catch, bind at 1.
  destruct (workspaceCheck db (User.id u) (Request.workspaceId (req w)) w)
    as [[[] | act | e] w1]; simpl in *.
  - intros H. exists w1. split; [reflexivity | exact H].
  - intros H. subst act. now elim Hnot.
  - discriminate.
Qed.

(** The workspace block on a workspace that was found. *)
Lemma workspaceCheck_found (db : Database) (userId : string)
    (workspaceId : jsval) (ws : Workspace.t) (w : World) :
  truthy workspaceId = true ->
  workspaces db workspaceId = Value (Query.found ws) ->
  workspaceCheck db userId workspaceId w
  = (if negb (String.eqb (Workspace.owner_id ws) userId)
        && negb (existsb (fun member =>
                            String.eqb (Member.user_id member) userId
                            && strict_eq (Member.status member) (JStr "active"))
                         (Workspace.workspace_members ws))
     then Done (answer 403 "Access denied"
                       "You do not have access to this workspace")
     else Normal tt,
     emit (DbSingle "workspaces" workspaceId) w).
Proof.
  intros Ht Hq. unfold workspaceCheck, when, bind, single.
  rewrite Ht, Hq. simpl.
  destruct (negb _ && negb _); reflexivity.
Qed.

(** The workspace block on a lookup that reports an error or no row. *)
Lemma workspaceCheck_not_found (db : Database) (userId : string)
    (workspaceId : jsval) (q : Query.result Workspace.t) (w : World) :
  truthy workspaceId = true ->
  workspaces db workspaceId = Value q ->
  Query.error q <> None \/ Query.data q = None ->
  workspaceCheck db userId workspaceId w
  = (Done (answer 404 "Workspace not found"
                  "The requested workspace does not exist"),
     emit (DbSingle "workspaces" workspaceId) w).
Proof.
  intros Ht Hq Hmiss. unfold workspaceCheck, when, bind, single.
  rewrite Ht, Hq.
  destruct q as [data error]; simpl in *.
  destruct error as [e|]; [reflexivity|].
  destruct data as [ws|]; [|reflexivity].
  destruct Hmiss as [H|H]; [now elim H | discriminate].
Qed.

Lemma owner_or_member_test (userId : string) (ws : Workspace.t) :
  negb (String.eqb (Workspace.owner_id ws) userId)
  && negb (existsb (fun member =>
                      String.eqb (Member.user_id member) userId
                      && strict_eq (Member.status member) (JStr "active"))
                   (Workspace.workspace_members ws)) = false
  <-> is_owner userId ws \/ is_active_member userId ws.
Proof.
  rewrite <- some_active_member. unfold is_owner.
  rewrite <- String.eqb_eq.
  destruct (String.eqb _ _), (existsb _ _); simpl; split; intros H;
    try reflexivity; try discriminate; auto.
  destruct H; discriminate.
Qed.

Lemma nested_owner_test (userId : string) (c : Client.t) :
  nested_owner_id c = JStr userId <-> owns_client_workspace userId c.
Proof.
  unfold nested_owner_id, owns_client_workspace.
  destruct (Client.workspace c) as [ws|]; split.
  - intros H. exists ws. split; [reflexivity | congruence].
  - intros (ws' & Hws & Ho). congruence.
  - discriminate.
  - intros (ws' & Hws & _). discriminate.
Qed.

(** The rest of the gate when there is no client id. *)
Lemma after_workspaceCheck_skipped (db : Database) (u : User.t)
    (clientId : jsval) (w : World) :
  truthy clientId = false ->
  after_workspaceCheck db u clientId w = (Next, w).
Proof.
  intros H. unfold after_workspaceCheck, try_catch, bind, clientCheck.
  rewrite H. reflexivity.
Qed.

(** The rest of the gate on a client lookup that reports an error or no
    row. *)
Lemma after_workspaceCheck_not_found (db : Database) (u : User.t)
    (clientId : jsval) (q : Query.result Client.t) (w : World) :
  truthy clientId = true ->
  clients db clientId = Value q ->
  Query.error q <> None \/ Query.data q = None ->
  after_workspaceCheck db u clientId w
  = (answer 404 "Client not found" "The requested client does not exist",
     emit (DbSingle "clients" clientId) w).
Proof.
  intros Ht Hq Hmiss.
  unfold after_workspaceCheck, try_catch, bind, clientCheck, when, single.
  rewrite Ht, Hq.
  destruct q as [data error]; simpl in *.
  destruct error as [e|]; [reflexivity|].
  destruct data as [c|]; [|reflexivity].
  destruct Hmiss as [H|H]; [now elim H | discriminate].
Qed.

(** The rest of the gate on a client that was found, for a caller of role
    ['client']. *)
Lemma after_workspaceCheck_client_role (db : Database) (u : User.t)
    (clientId : jsval) (c : Client.t) (w : World) :
  truthy clientId = true ->
  clients db clientId = Value (Query.found c) ->
  User.role u = JStr "client" ->
  after_workspaceCheck db u clientId w
  = (if strict_eq (Client.user_id c) (JStr (User.id u)) then Next
     else answer 403 "Access denied"
                 "You can only access your own client data",
     emit (DbSingle "clients" clientId) w).
Proof.
  intros Ht Hq Hrole.
  unfold after_workspaceCheck, try_catch, bind, clientCheck, when, single.
  rewrite Ht, Hq, Hrole. cbn.
  destruct (strict_eq (Client.user_id c) (JStr (User.id u))); reflexivity.
Qed.

(** The rest of the gate on a client that was found, for a caller of any
    other role. *)
Lemma after_workspaceCheck_other_role (db : Database) (u : User.t)
    (clientId : jsval) (c : Client.t) (w : World) :
  truthy clientId = true ->
  clients db clientId = Value (Query.found c) ->
  User.role u <> JStr "client" ->
  after_workspaceCheck db u clientId w
  = (if strict_eq (nested_owner_id c) (JStr (User.id u)) then Next
     else answer 403 "Access denied"
                 "You do not have access to this client",
     emit (DbSingle "clients" clientId) w).
Proof.
  intros Ht Hq Hrole. apply strict_eq_false in Hrole.
  unfold after_workspaceCheck, try_catch, bind, clientCheck, when, single.
  rewrite Ht, Hq, Hrole. cbn.
  destruct (strict_eq (nested_owner_id c) (JStr (User.id u))); reflexivity.
Qed.

(** When the workspace block is passed. *)
Lemma workspaceCheck_normal_iff (db : Database) (u : User.t)
    (workspaceId : jsval) (w : World) :
  (exists w1, workspaceCheck db (User.id u) workspaceId w = (Normal tt, w1))
  <-> workspace_ok db u workspaceId.
Proof.
  unfold workspace_ok.
  destruct (truthy workspaceId) eqn:Ht.
  - destruct (workspaces db workspaceId) as [q | e] eqn:Hq.
    + destruct q as [[ws|] [e|]].
      * split.
        -- intros (w1 & H).
           rewrite (workspaceCheck_not_found db _ _ _ w Ht Hq) in H;
             [discriminate | left; discriminate].
        -- intros [H | (ws' & H & _)]; discriminate.
      * pose proof (workspaceCheck_found db (User.id u) _ ws w Ht Hq) as Hrun.
        pose proof (owner_or_member_test (User.id u) ws) as Htest.
        split.
        -- intros (w1 & H). right. exists ws. split; [reflexivity |].
           apply Htest. rewrite Hrun in H.
           destruct (negb _ && negb _); [discriminate | reflexivity].
        -- intros [H | (ws' & H & Hok)]; [discriminate |].
           injection H as <-. apply Htest in Hok.
           rewrite Hok in Hrun. eauto.
      * split.
        -- intros (w1 & H).
           rewrite (workspaceCheck_not_found db _ _ _ w Ht Hq) in H;
             [discriminate | left; discriminate].
        -- intros [H | (ws' & H & _)]; discriminate.
      * split.
        -- intros (w1 & H).
           rewrite (workspaceCheck_not_found db _ _ _ w Ht Hq) in H;
             [discriminate | right; reflexivity].
        -- intros [H | (ws' & H & _)]; discriminate.
    + split.
      * intros (w1 & H). revert H.
        unfold workspaceCheck, when, bind, single. rewrite Ht, Hq.
        discriminate.
      * intros [H | (ws' & H & _)]; discriminate.
  - split; [now left |].
    intros _. exists w. now apply workspaceCheck_skipped.
Qed.

(** When the rest of the gate calls [next()]. *)
Lemma after_workspaceCheck_next_iff (db : Database) (u : User.t)
    (clientId : jsval) (w : World) :
  fst (after_workspaceCheck db u clientId w) = Next <-> client_ok db u clientId.
Proof.
  unfold client_ok.
  destruct (truthy clientId) eqn:Ht.
  - destruct (clients db clientId) as [q | e] eqn:Hq.
    + destruct q as [[c|] [e|]].
      * rewrite (after_workspaceCheck_not_found db u _ _ w Ht Hq)
          by (left; discriminate).
        split; [discriminate |].
        intros [H | (c' & H & _)]; discriminate.
      * destruct (strict_eq (User.role u) (JStr "client")) eqn:Hrole.
        -- apply strict_eq_true in Hrole.
           rewrite (after_workspaceCheck_client_role db u _ c w Ht Hq Hrole).
           destruct (strict_eq (Client.user_id c) (JStr (User.id u)))
             eqn:Hown; simpl.
           ++ apply strict_eq_true in Hown. split; [| reflexivity].
              intros _. right. exists c. repeat split; auto.
              intros H. now elim H.
           ++ apply strict_eq_false in Hown. split; [discriminate |].
              intros [H | (c' & H & Hc & _)]; [discriminate |].
              injection H as <-. now elim Hown; apply Hc.
        -- apply strict_eq_false in Hrole.
           rewrite (after_workspaceCheck_other_role db u _ c w Ht Hq Hrole).
           destruct (strict_eq (nested_owner_id c) (JStr (User.id u)))
             eqn:Hown; simpl.
           ++ apply strict_eq_true in Hown. apply nested_owner_test in Hown.
              split; [| reflexivity].
              intros _. right. exists c. repeat split; auto.
              intros H. now elim Hrole.
           ++ apply strict_eq_false in Hown. split; [discriminate |].
              intros [H | (c' & H & _ & Hc)]; [discriminate |].
              injection H as <-. elim Hown.
              apply nested_owner_test. now apply Hc.
      * rewrite (after_workspaceCheck_not_found db u _ _ w Ht Hq)
          by (left; discriminate).
        split; [discriminate |].
        intros [H | (c' & H & _)]; discriminate.
      * rewrite (after_workspaceCheck_not_found db u _ _ w Ht Hq)
          by (right; reflexivity).
        split; [discriminate |].
        intros [H | (c' & H & _)]; discriminate.
    + split.
      * unfold after_workspaceCheck, try_catch, bind, clientCheck, when,
          single. rewrite Ht, Hq. discriminate.
      * intros [H | (c' & H & _)]; discriminate.
  - rewrite (after_workspaceCheck_skipped db u _ w Ht).
    split; [now left | reflexivity].
Qed.

(** The gate of a caller who is not an admin, by how the workspace block
    completes. *)
Lemma gate_by_blocks (db : Database) (w : World) (u : User.t) :
  Request.user (req w) = Some u ->
  User.role u <> JStr "admin" ->
  requireWorkspaceAccess db w
  = match workspaceCheck db (User.id u) (Request.workspaceId (req w)) w with
    | (Normal _, w1) => after_workspaceCheck db u (Request.clientId (req w)) w1
    | (Done act, w1) => (act, w1)
    | (Throw e, w1) => requireWorkspaceAccess_catch e w1
    end.
Proof.
  intros Hu Hrole. rewrite (gate_blocks db w u Hu Hrole).
  unfold after_workspaceCheck, try_catch, bind.
  destruct (workspaceCheck db (User.id u) (Request.workspaceId (req w)) w)
    as [[[] | act | e] w1]; reflexivity.
Qed.

(** The workspace block reads the database at the workspace id only. *)
Lemma workspaceCheck_ext (db db' : Database) (userId : string)
    (workspaceId : jsval) (w : World) :
  workspaces db' workspaceId = workspaces db workspaceId ->
  workspaceCheck db' userId workspaceId w
  = workspaceCheck db userId workspaceId w.
Proof.
  intros H. unfold workspaceCheck, when, bind, single. now rewrite H.
Qed.

(** ** The Ownership Gate: workspaces *)

(** C1.  A request with a workspace id, from a caller who is not an admin.
    When the lookup reports an error or no row, the gate answers 404, and it
    does so for every caller, having done nothing but the workspace lookup.
    When the workspace is found, the workspace block is passed exactly when
    the caller is the owner or has a membership whose status is ['active'];
    the request then goes on with the rest of the gate, and otherwise the
    gate answers 403. *)
Theorem workspace_access (db : Database) (w : World) (u : User.t)
    (wid : jsval) :
  Request.user (req w) = Some u ->
  User.role u <> JStr "admin" ->
  Request.workspaceId (req w) = wid ->
  truthy wid = true ->
  (forall q,
      workspaces db wid = Value q ->
      Query.error q <> None \/ Query.data q = None ->
      requireWorkspaceAccess db w
      = (answer 404 "Workspace not found"
                "The requested workspace does not exist",
         emit (DbSingle "workspaces" wid) w))
  /\ (forall ws,
         workspaces db wid = Value (Query.found ws) ->
         (workspaceCheck db (User.id u) wid w
          = (Normal tt, emit (DbSingle "workspaces" wid) w)
          <-> is_owner (User.id u) ws \/ is_active_member (User.id u) ws)
         /\ (is_owner (User.id u) ws \/ is_active_member (User.id u) ws ->
             requireWorkspaceAccess db w
             = after_workspaceCheck db u (Request.clientId (req w))
                 (emit (DbSingle "workspaces" wid) w))
         /\ (~ (is_owner (User.id u) ws \/ is_active_member (User.id u) ws) ->
             requireWorkspaceAccess db w
             = (answer 403 "Access denied"
                       "You do not have access to this workspace",
                emit (DbSingle "workspaces" wid) w))).
Proof.
  intros Hu Hrole Hwid Ht. split.
  - intros q Hq Hmiss.
    apply (gate_stops_at_workspace db w _ u _ Hu Hrole).
    rewrite Hwid. now apply workspaceCheck_not_found with (q := q).
  - intros ws Hq.
    pose proof (workspaceCheck_found db (User.id u) wid ws w Ht Hq) as Hrun.
    pose proof (owner_or_member_test (User.id u) ws) as Htest.
    destruct (negb _ && negb _) eqn:Hdeny in Hrun.
    + assert (Hno : ~ (is_owner (User.id u) ws
                       \/ is_active_member (User.id u) ws)).
      { intros H. apply Htest in H. congruence. }
      repeat split.
      * intros H. rewrite Hrun in H. discriminate.
      * intros H. now elim Hno.
      * intros H. now elim Hno.
      * intros _. apply (gate_stops_at_workspace db w _ u _ Hu Hrole).
        now rewrite Hwid.
    + assert (Hyes : is_owner (User.id u) ws
                     \/ is_active_member (User.id u) ws).
      { now apply Htest. }
      repeat split.
      * intros _. exact Hyes.
      * intros _. exact Hrun.
      * intros _. apply (gate_past_workspace db w _ u Hu Hrole).
        now rewrite Hwid.
      * intros Hno. now elim Hno.
Qed.

Lemma workspace_access_witness :
  let u := Sample.user Sample.u2 "client" "active" in
  let w := Sample.request JUndefined (JStr Sample.w1) JUndefined (Some u) in
  workspaceCheck Sample.db (User.id u) (JStr Sample.w1) w
  = (Normal tt, emit (DbSingle "workspaces" (JStr Sample.w1)) w)
  <-> is_owner (User.id u) Sample.workspace1
      \/ is_active_member (User.id u) Sample.workspace1.
Proof.
  intros u w.
  refine (proj1 (proj2 (workspace_access Sample.db w u (JStr Sample.w1)
                          eq_refl _ eq_refl eq_refl)
                   Sample.workspace1 eq_refl)).
  discriminate.
Defined.

(** ** The Ownership Gate: admins *)

(** C4.  For a caller whose role is ['admin'] the gate calls [next()],
    whatever the workspace and client ids and whatever the database holds
    or answers. *)
Theorem admin_always_proceeds (db : Database) (w : World) (u : User.t) :
  Request.user (req w) = Some u ->
  User.role u = JStr "admin" ->
  fst (requireWorkspaceAccess db w) = Next.
Proof.
  intros Hu Hrole.
  unfold requireWorkspaceAccess, try_catch, bind, get_req.
  rewrite Hu, Hrole. reflexivity.
Qed.

Lemma admin_always_proceeds_witness :
  fst (requireWorkspaceAccess Sample.down
         (Sample.request JUndefined (JStr Sample.w1) (JStr Sample.c2)
            (Some (Sample.user Sample.u3 "admin" "active"))))
  = Next.
Proof.
  apply (admin_always_proceeds Sample.down _
           (Sample.user Sample.u3 "admin" "active")); reflexivity.
Defined.

(** C9.  For an admin caller the gate returns from [next()] with the world
    as it found it: no database lookup has been made and nothing logged.
    So the outcome is the same for every database, also one that has no row
    for the workspace id or the client id, and it is never the 404 of a
    missing resource. *)
Theorem admin_returns_before_lookup (db : Database) (w : World) (u : User.t) :
  Request.user (req w) = Some u ->
  User.role u = JStr "admin" ->
  requireWorkspaceAccess db w = (Next, w)
  /\ trace (snd (requireWorkspaceAccess db w)) = trace w
  /\ (forall r, fst (requireWorkspaceAccess db w) = Send r ->
                Response.status r <> 404).
Proof.
  intros Hu Hrole.
  assert (Hrun : requireWorkspaceAccess db w = (Next, w)).
  { unfold requireWorkspaceAccess, try_catch, bind, get_req.
    rewrite Hu, Hrole. reflexivity. }
  rewrite Hrun. repeat split. simpl. discriminate.
Qed.

Lemma admin_returns_before_lookup_witness :
  let w := Sample.request JUndefined (JStr Sample.w9) (JStr Sample.w9)
             (Some (Sample.user Sample.u1 "admin" "active")) in
  workspaces Sample.db (JStr Sample.w9) = Sample.missing
  /\ clients Sample.db (JStr Sample.w9) = Sample.missing
  /\ requireWorkspaceAccess Sample.db w = (Next, w).
Proof.
  intros w. split; [reflexivity | split; [reflexivity |]].
  apply (admin_returns_before_lookup Sample.db w
           (Sample.user Sample.u1 "admin" "active")); reflexivity.
Defined.

(** ** The Ownership Gate: clients *)

(** C2, as the code has it.  A request with a client id, from a caller of
    role ['client'].  The workspace block comes first.  When it has nothing
    against the caller (there is no workspace id, or the workspace is found
    and the caller owns it or is an active member of it), the gate answers
    404 when the client lookup reports an error or no row, calls [next()]
    exactly when the [user_id] of the client found is the caller's id, and
    answers 403 otherwise.  When the workspace block has something against
    the caller, the gate does not call [next()], whatever the client
    record. *)
Theorem client_role_own_record (db : Database) (w : World) (u : User.t)
    (cid : jsval) :
  Request.user (req w) = Some u ->
  User.role u = JStr "client" ->
  Request.clientId (req w) = cid ->
  truthy cid = true ->
  (workspace_ok db u (Request.workspaceId (req w)) ->
   (forall q,
       clients db cid = Value q ->
       Query.error q <> None \/ Query.data q = None ->
       fst (requireWorkspaceAccess db w)
       = answer 404 "Client not found" "The requested client does not exist")
   /\ (forall c,
          clients db cid = Value (Query.found c) ->
          (fst (requireWorkspaceAccess db w) = Next
           <-> Client.user_id c = JStr (User.id u))
          /\ (Client.user_id c <> JStr (User.id u) ->
              fst (requireWorkspaceAccess db w)
              = answer 403 "Access denied"
                       "You can only access your own client data")))
  /\ (~ workspace_ok db u (Request.workspaceId (req w)) ->
      fst (requireWorkspaceAccess db w) <> Next).
Proof.
  intros Hu Hrole Hcid Ht.
  assert (Hadmin : User.role u <> JStr "admin")
    by (rewrite Hrole; discriminate).
  split.
  - intros Hok. apply (workspaceCheck_normal_iff db u _ w) in Hok.
    destruct Hok as (w1 & Hws).
    rewrite (gate_past_workspace db w w1 u Hu Hadmin Hws), Hcid.
    split.
    + intros q Hq Hmiss.
      now rewrite (after_workspaceCheck_not_found db u cid q w1 Ht Hq Hmiss).
    + intros c Hq.
      rewrite (after_workspaceCheck_client_role db u cid c w1 Ht Hq Hrole).
      destruct (strict_eq (Client.user_id c) (JStr (User.id u))) eqn:Hown;
        simpl.
      * apply strict_eq_true in Hown. repeat split; auto.
        intros H. now elim H.
      * apply strict_eq_false in Hown. repeat split; auto.
        -- discriminate.
        -- intros H. now elim Hown.
  - intros Hno Hnext.
    destruct (gate_next_needs_both db w u Hu Hadmin Hnext) as (w1 & Hws & _).
    apply Hno. apply workspaceCheck_normal_iff with (w := w). eauto.
Qed.

Lemma client_role_own_record_witness :
  let u := Sample.user Sample.u2 "client" "active" in
  let w := Sample.request JUndefined (JStr Sample.w1) (JStr Sample.c1)
             (Some u) in
  workspace_ok Sample.db u (JStr Sample.w1)
  /\ (fst (requireWorkspaceAccess Sample.db w) = Next
      <-> Client.user_id Sample.client1 = JStr (User.id u)).
Proof.
  intros u w.
  assert (Hok : workspace_ok Sample.db u (JStr Sample.w1)).
  { right. exists Sample.workspace1. split; [reflexivity |].
    right. eexists. split; [left; reflexivity | split; reflexivity]. }
  split; [exact Hok |].
  exact (proj1 (proj2 (proj1 (client_role_own_record Sample.db w u
                                (JStr Sample.c1)
                                eq_refl eq_refl eq_refl eq_refl) Hok)
                  Sample.client1 eq_refl)).
Defined.

(** C2, as the claim has it, fails on a request that carries a workspace id
    too: the caller of role ['client'] is the login the client record is
    linked to, but the workspace id names no row, and the gate answers 404
    from the workspace block instead of calling [next()]. *)
Lemma client_role_stopped_by_workspace :
  let u := Sample.user Sample.u2 "client" "active" in
  let w := Sample.request JUndefined (JStr Sample.w9) (JStr Sample.c1)
             (Some u) in
  truthy (Request.clientId (req w)) = true
  /\ clients Sample.db (Request.clientId (req w))
     = Value (Query.found Sample.client1)
  /\ Client.user_id Sample.client1 = JStr (User.id u)
  /\ requireWorkspaceAccess Sample.db w
     = (answer 404 "Workspace not found"
               "The requested workspace does not exist",
        emit (DbSingle "workspaces" (JStr Sample.w9)) w)
  /\ fst (requireWorkspaceAccess Sample.db w) <> Next.
Proof.
  intros u w. repeat split. discriminate.
Qed.

(** C3, as the code has it.  A request with a client id, from a caller
    whose role is neither ['client'] nor ['admin'], for a client that is
    found.  The workspace block comes first.  When it has nothing against
    the caller, the gate calls [next()] exactly when the caller's id is the
    [owner_id] of the workspace nested in the client record, and answers 403
    otherwise.  When the workspace block has something against the caller,
    the gate does not call [next()].  In every case the client's
    [creator_id] plays no part: a database that answers the workspace lookup
    alike and whose record for this client has the same nested workspace
    gives the same run. *)
Theorem other_roles_workspace_owner (db : Database) (w : World)
    (u : User.t) (cid : jsval) (c : Client.t) :
  Request.user (req w) = Some u ->
  User.role u <> JStr "client" ->
  User.role u <> JStr "admin" ->
  Request.clientId (req w) = cid ->
  truthy cid = true ->
  clients db cid = Value (Query.found c) ->
  (workspace_ok db u (Request.workspaceId (req w)) ->
   (fst (requireWorkspaceAccess db w) = Next
    <-> owns_client_workspace (User.id u) c)
   /\ (~ owns_client_workspace (User.id u) c ->
       fst (requireWorkspaceAccess db w)
       = answer 403 "Access denied" "You do not have access to this client"))
  /\ (~ workspace_ok db u (Request.workspaceId (req w)) ->
      fst (requireWorkspaceAccess db w) <> Next)
  /\ (forall db' c',
         workspaces db' (Request.workspaceId (req w))
         = workspaces db (Request.workspaceId (req w)) ->
         clients db' cid = Value (Query.found c') ->
         Client.workspace c' = Client.workspace c ->
         requireWorkspaceAccess db' w = requireWorkspaceAccess db w).
Proof.
  intros Hu Hclient Hadmin Hcid Ht Hq.
  split; [| split].
  - intros Hok. apply (workspaceCheck_normal_iff db u _ w) in Hok.
    destruct Hok as (w1 & Hws).
    rewrite (gate_past_workspace db w w1 u Hu Hadmin Hws), Hcid.
    rewrite (after_workspaceCheck_other_role db u cid c w1 Ht Hq Hclient).
    split.
    + rewrite <- nested_owner_test, <- strict_eq_true.
      destruct (strict_eq (nested_owner_id c) (JStr (User.id u))); simpl;
        split; auto; discriminate.
    + rewrite <- nested_owner_test. intros H.
      apply strict_eq_false in H. now rewrite H.
  - intros Hno Hnext.
    destruct (gate_next_needs_both db w u Hu Hadmin Hnext) as (w1 & Hws & _).
    apply Hno. apply workspaceCheck_normal_iff with (w := w). eauto.
  - intros db' c' Hsamews Hq' Hsame.
    rewrite (gate_by_blocks db' w u Hu Hadmin),
      (gate_by_blocks db w u Hu Hadmin),
      (workspaceCheck_ext db db' _ _ w Hsamews).
    destruct (workspaceCheck db (User.id u) (Request.workspaceId (req w)) w)
      as [[[] | act | e] w1]; try reflexivity.
    rewrite Hcid.
    rewrite (after_workspaceCheck_other_role db' u cid c' w1 Ht Hq' Hclient),
      (after_workspaceCheck_other_role db u cid c w1 Ht Hq Hclient).
    unfold nested_owner_id. now rewrite Hsame.
Qed.

Lemma other_roles_workspace_owner_witness :
  let u := Sample.user Sample.u1 "agency" "active" in
  let w := Sample.request JUndefined (JStr Sample.w1) (JStr Sample.c1)
             (Some u) in
  Client.creator_id Sample.client1 <> User.id u
  /\ workspace_ok Sample.db u (JStr Sample.w1)
  /\ (fst (requireWorkspaceAccess Sample.db w) = Next
      <-> owns_client_workspace (User.id u) Sample.client1).
Proof.
  intros u w.
  assert (Hok : workspace_ok Sample.db u (JStr Sample.w1)).
  { right. exists Sample.workspace1. split; [reflexivity |].
    left. reflexivity. }
  split; [discriminate | split; [exact Hok |]].
  refine (proj1 (proj1 (other_roles_workspace_owner Sample.db w u
                          (JStr Sample.c1) Sample.client1
                          eq_refl _ _ eq_refl eq_refl eq_refl) Hok));
    discriminate.
Defined.

(** C3, as the claim has it, fails on a request that carries a workspace id
    too: the caller, an agency, owns the workspace nested in the client
    record, but the workspace id names no row, and the gate answers 404 from
    the workspace block instead of calling [next()]. *)
Lemma workspace_owner_stopped_by_workspace :
  let u := Sample.user Sample.u1 "agency" "active" in
  let w := Sample.request JUndefined (JStr Sample.w9) (JStr Sample.c1)
             (Some u) in
  truthy (Request.clientId (req w)) = true
  /\ clients Sample.db (Request.clientId (req w))
     = Value (Query.found Sample.client1)
  /\ nested_owner_id Sample.client1 = JStr (User.id u)
  /\ requireWorkspaceAccess Sample.db w
     = (answer 404 "Workspace not found"
               "The requested workspace does not exist",
        emit (DbSingle "workspaces" (JStr Sample.w9)) w)
  /\ fst (requireWorkspaceAccess Sample.db w) <> Next.
Proof.
  intros u w. repeat split. discriminate.
Qed.

(** C10, as the code has it.  A request with a client id, from a caller
    whose role is neither ['client'] nor ['admin'], for a client that is
    found and whose nested workspace is [null].  The owner id read from it
    is [undefined], which is no caller's id.  So the gate never calls
    [next()]; and when the workspace block, which comes first, has nothing
    against the caller, the gate answers the 403 of the client block, not
    the 500 of the [catch] block. *)
Theorem client_without_workspace_denied (db : Database) (w : World)
    (u : User.t) (cid : jsval) (c : Client.t) :
  Request.user (req w) = Some u ->
  User.role u <> JStr "client" ->
  User.role u <> JStr "admin" ->
  Request.clientId (req w) = cid ->
  truthy cid = true ->
  clients db cid = Value (Query.found c) ->
  Client.workspace c = None ->
  nested_owner_id c = JUndefined
  /\ (forall userId, strict_eq (nested_owner_id c) (JStr userId) = false)
  /\ (workspace_ok db u (Request.workspaceId (req w)) ->
      fst (requireWorkspaceAccess db w)
      = answer 403 "Access denied" "You do not have access to this client")
  /\ fst (requireWorkspaceAccess db w) <> Next.
Proof.
  intros Hu Hclient Hadmin Hcid Ht Hq Hnone.
  assert (Hundef : nested_owner_id c = JUndefined)
    by (unfold nested_owner_id; now rewrite Hnone).
  split; [exact Hundef | split; [| split]].
  - intros userId. now rewrite Hundef.
  - intros Hok. apply (workspaceCheck_normal_iff db u _ w) in Hok.
    destruct Hok as (w1 & Hws).
    rewrite (gate_past_workspace db w w1 u Hu Hadmin Hws), Hcid.
    rewrite (after_workspaceCheck_other_role db u cid c w1 Ht Hq Hclient).
    now rewrite Hundef.
  - intros Hnext.
    destruct (gate_next_needs_both db w u Hu Hadmin Hnext) as (w1 & _ & Hcl).
    rewrite Hcid in Hcl.
    rewrite (after_workspaceCheck_other_role db u cid c w1 Ht Hq Hclient),
      Hundef in Hcl.
    discriminate.
Qed.

Lemma client_without_workspace_denied_witness :
  let u := Sample.user Sample.u3 "creator" "active" in
  let w := Sample.request JUndefined JUndefined (JStr Sample.c2) (Some u) in
  fst (requireWorkspaceAccess Sample.db w)
  = answer 403 "Access denied" "You do not have access to this client".
Proof.
  intros u w.
  refine (proj1 (proj2 (proj2 (client_without_workspace_denied Sample.db w u
                                 (JStr Sample.c2) Sample.client2
                                 eq_refl _ _ eq_refl eq_refl eq_refl
                                 eq_refl))) _);
    [discriminate | discriminate | left; reflexivity].
Defined.

(** C10, as the claim has it, fails on a request that carries a workspace
    id too: the client record has no workspace, but the workspace id of the
    request names no row, and the gate answers 404 from the workspace block,
    not 403. *)
Lemma client_without_workspace_not_403 :
  let u := Sample.user Sample.u3 "creator" "active" in
  let w := Sample.request JUndefined (JStr Sample.w9) (JStr Sample.c2)
             (Some u) in
  truthy (Request.clientId (req w)) = true
  /\ clients Sample.db (Request.clientId (req w))
     = Value (Query.found Sample.client2)
  /\ Client.workspace Sample.client2 = None
  /\ requireWorkspaceAccess Sample.db w
     = (answer 404 "Workspace not found"
               "The requested workspace does not exist",
        emit (DbSingle "workspaces" (JStr Sample.w9)) w)
  /\ ~ (exists r,
          fst (requireWorkspaceAccess Sample.db w) = Send r
          /\ Response.status r = 403).
Proof.
  intros u w. repeat split.
  intros (r & Hr & Hs). inversion Hr. subst r. discriminate.
Qed.

(** ** The Role Gate *)

(** C5.  With an identity on the request, the Role Gate that was given the
    allow-list [l] calls [next()] exactly when the identity's role is an
    element of [l], and answers 403 otherwise.  Membership is all there is:
    an ['admin'] whose role is not in the list is turned away like anyone
    else. *)
Theorem requireRole_exact_membership (l : list jsval) (w : World)
    (u : User.t) :
  Request.user (req w) = Some u ->
  (fst (requireRole (RolesArray l) w) = Next <-> In (User.role u) l)
  /\ (~ In (User.role u) l ->
      requireRole (RolesArray l) w
      = (answer 403 "Insufficient permissions"
                ("This action requires one of the following roles: "
                 ++ join ", " l), w))
  /\ (User.role u = JStr "admin" ->
      ~ In (JStr "admin") l ->
      exists r,
        fst (requireRole (RolesArray l) w) = Send r
        /\ Response.status r = 403).
Proof.
  intros Hu. unfold requireRole. rewrite Hu.
  cbn [allowedRoles].
  pose proof (includes_In l (User.role u)) as Hin.
  destruct (includes l (User.role u)); simpl.
  - assert (H : In (User.role u) l) by now apply Hin.
    repeat split; auto.
    + intros Hno. now elim Hno.
    + intros Hadmin Hno. rewrite Hadmin in H. now elim Hno.
  - assert (H : ~ In (User.role u) l).
    { intros Hyes. apply Hin in Hyes. discriminate. }
    repeat split; auto.
    + discriminate.
    + intros Hyes. now elim H.
    + intros _ _. eexists. split; reflexivity.
Qed.

Lemma requireRole_exact_membership_witness :
  let creator := Sample.user Sample.u2 "creator" "active" in
  let admin := Sample.user Sample.u1 "admin" "active" in
  let list := [JStr "agency"; JStr "creator"] in
  fst (requireRole (RolesArray list)
         (Sample.request JUndefined JUndefined JUndefined (Some creator)))
  = Next
  /\ exists r,
      fst (requireRole (RolesArray list)
             (Sample.request JUndefined JUndefined JUndefined (Some admin)))
      = Send r
      /\ Response.status r = 403.
Proof.
  intros creator admin list. split.
  - apply (proj1 (requireRole_exact_membership list
                    (Sample.request JUndefined JUndefined JUndefined
                       (Some creator)) creator eq_refl)).
    right. left. reflexivity.
  - refine (proj2 (proj2 (requireRole_exact_membership list
                            (Sample.request JUndefined JUndefined JUndefined
                               (Some admin)) admin eq_refl)) eq_refl _).
    simpl. intros [H | [H | H]]; [discriminate | discriminate | exact H].
Defined.

(** ** The Token Verifier *)

(** The verifier up to the lookup, for a token that verifies. *)
Lemma authenticateToken_verified (verify : Verifier) (db : Database)
    (w : World) (p : Payload) :
  truthy (token_of (Request.authorization (req w))) = true ->
  verify (token_of (Request.authorization (req w))) = Value p ->
  authenticateToken verify db w
  = try_catch
      (q <- single "users" (users db) (userId p) ;;
       match Query.error q, Query.data q with
       | None, Some user =>
           if negb (strict_eq (User.status user) (JStr "active")) then
             reply 403 "Account inactive" "Your account has been deactivated"
           else
             set_req_user user ;;
             next
       | _, _ =>
           reply 401 "Invalid token" "User not found or token expired"
       end)
      authenticateToken_catch w.
Proof.
  intros Ht Hv.
  unfold authenticateToken, try_catch, bind at 1 2, get_req.
  rewrite Ht, Hv. reflexivity.
Qed.

(** The verifier on a token that [jwt.verify] rejects. *)
Lemma authenticateToken_rejected (verify : Verifier) (db : Database)
    (w : World) (e : Err.t) :
  truthy (token_of (Request.authorization (req w))) = true ->
  verify (token_of (Request.authorization (req w))) = Raises e ->
  authenticateToken verify db w = authenticateToken_catch e w.
Proof.
  intros Ht Hv.
  unfold authenticateToken, try_catch, bind, get_req.
  rewrite Ht, Hv. reflexivity.
Qed.

(** C6.  A token that verifies and whose subject has a user row with a
    status other than ['active']: the verifier answers 403, whatever the
    role in that row, and leaves the request as it was, so no identity has
    been attached. *)
Theorem inactive_account_denied (verify : Verifier) (db : Database)
    (w : World) (p : Payload) (user : User.t) :
  truthy (token_of (Request.authorization (req w))) = true ->
  verify (token_of (Request.authorization (req w))) = Value p ->
  users db (userId p) = Value (Query.found user) ->
  User.status user <> JStr "active" ->
  authenticateToken verify db w
  = (answer 403 "Account inactive" "Your account has been deactivated",
     emit (DbSingle "users" (userId p)) w)
  /\ req (snd (authenticateToken verify db w)) = req w.
Proof.
  intros Ht Hv Hq Hstatus. apply strict_eq_false in Hstatus.
  assert (Hrun : authenticateToken verify db w
                 = (answer 403 "Account inactive"
                           "Your account has been deactivated",
                    emit (DbSingle "users" (userId p)) w)).
  { rewrite (authenticateToken_verified verify db w p Ht Hv).
    unfold try_catch, bind, single. rewrite Hq. cbn.
    rewrite Hstatus. reflexivity. }
  rewrite Hrun. split; reflexivity.
Qed.

Lemma inactive_account_denied_witness :
  let w := Sample.request (JStr "Bearer tok-3") JUndefined JUndefined None in
  authenticateToken Sample.verify Sample.db w
  = (answer 403 "Account inactive" "Your account has been deactivated",
     emit (DbSingle "users" (JStr Sample.u3)) w)
  /\ req (snd (authenticateToken Sample.verify Sample.db w)) = req w.
Proof.
  intros w.
  refine (inactive_account_denied Sample.verify Sample.db w
            {| userId := JStr Sample.u3 |}
            (Sample.user Sample.u3 "agency" "suspended")
            eq_refl eq_refl eq_refl _).
  discriminate.
Defined.



(** C8, as the code has it.  For a token that verifies: a lookup that throws
    an error named neither [JsonWebTokenError] nor [TokenExpiredError] ends
    in the generic 500; a lookup that reports an error in its result, or no
    row (the subject is unknown), is answered 401 with the message that the
    user was not found, an answer the [catch] block never gives. *)
Theorem lookup_failures (verify : Verifier) (db : Database) (w : World)
    (p : Payload) :
  truthy (token_of (Request.authorization (req w))) = true ->
  verify (token_of (Request.authorization (req w))) = Value p ->
  (forall e,
      users db (userId p) = Raises e ->
      Err.name e <> "JsonWebTokenError" ->
      Err.name e <> "TokenExpiredError" ->
      authenticateToken verify db w
      = (answer 500 "Authentication failed"
                "Internal server error during authentication",
         emit (LogError "Authentication error:" e)
           (emit (DbSingle "users" (userId p)) w)))
  /\ (forall q,
         users db (userId p) = Value q ->
         Query.error q <> None \/ Query.data q = None ->
         authenticateToken verify db w
         = (answer 401 "Invalid token" "User not found or token expired",
            emit (DbSingle "users" (userId p)) w))
  /\ (forall e w',
         fst (authenticateToken_catch e w')
         <> answer 401 "Invalid token" "User not found or token expired").
Proof.
  intros Ht Hv.
  rewrite (authenticateToken_verified verify db w p Ht Hv).
  split; [| split].
  - intros e Hq Hjwt Hexp.
    apply String.eqb_neq in Hjwt. apply String.eqb_neq in Hexp.
    unfold try_catch, bind, single, authenticateToken_catch.
    rewrite Hq, Hjwt, Hexp. reflexivity.
  - intros q Hq Hmiss.
    unfold try_catch, bind, single. rewrite Hq.
    destruct q as [data error]; simpl in *.
    destruct error as [e|]; [reflexivity|].
    destruct data as [user|]; [|reflexivity].
    destruct Hmiss as [H|H]; [now elim H | discriminate].
  - intros e w'. unfold authenticateToken_catch.
    destruct (String.eqb (Err.name e) "JsonWebTokenError");
      [| destruct (String.eqb (Err.name e) "TokenExpiredError")];
      simpl; discriminate.
Qed.

Lemma lookup_failures_witness :
  let w := Sample.request (JStr "Bearer tok-gone") JUndefined JUndefined None in
  authenticateToken Sample.verify Sample.db w
  = (answer 401 "Invalid token" "User not found or token expired",
     emit (DbSingle "users" (JStr Sample.w9)) w).
Proof.
  intros w.
  refine (proj1 (proj2 (lookup_failures Sample.verify Sample.db w
                          {| userId := JStr Sample.w9 |} eq_refl eq_refl))
            {| Query.data := None; Query.error := Some Sample.no_rows |}
            eq_refl _).
  right. reflexivity.
Defined.

(** C8, as the claim has it, fails: with the database unreachable the lookup
    of a verified token's subject reports an error that has nothing to do
    with the token, and the verifier answers 401, not 500. *)
Lemma reported_lookup_error_is_not_500 :
  let w := Sample.request (JStr "Bearer tok-1") JUndefined JUndefined None in
  Sample.verify (token_of (Request.authorization (req w)))
  = Value {| userId := JStr Sample.u1 |}
  /\ users Sample.down (JStr Sample.u1)
     = Value {| Query.data := None; Query.error := Some Sample.unreachable |}
  /\ Err.name Sample.unreachable <> "JsonWebTokenError"
  /\ Err.name Sample.unreachable <> "TokenExpiredError"
  /\ authenticateToken Sample.verify Sample.down w
     = (answer 401 "Invalid token" "User not found or token expired",
        emit (DbSingle "users" (JStr Sample.u1)) w)
  /\ ~ (exists r,
          fst (authenticateToken Sample.verify Sample.down w) = Send r
          /\ Response.status r = 500).
Proof.
  intros w. repeat split; try discriminate.
  intros (r & Hr & Hs). inversion Hr. subst r. discriminate.
Qed.

(** * More of the middleware *)

(** ** The Token Verifier: the way through *)

(** X1.  The verifier calls [next()] exactly when the header carries a token
    that [jwt.verify] accepts and the lookup of its subject finds, without
    error, a user row whose status is ['active'].  That row is then the
    [req.user] of the request, the rest of the request is as before, and the
    lookup is the one thing the run has done. *)
Theorem authenticateToken_success (verify : Verifier) (db : Database)
    (w : World) :
  (forall p user,
      truthy (token_of (Request.authorization (req w))) = true ->
      verify (token_of (Request.authorization (req w))) = Value p ->
      users db (userId p) = Value (Query.found user) ->
      User.status user = JStr "active" ->
      authenticateToken verify db w
      = (Next, {| req := Request.set_user user (req w);
                  trace := trace w ++ [DbSingle "users" (userId p)] |}))
  /\ (fst (authenticateToken verify db w) = Next ->
      exists p user,
        truthy (token_of (Request.authorization (req w))) = true
        /\ verify (token_of (Request.authorization (req w))) = Value p
        /\ users db (userId p) = Value (Query.found user)
        /\ User.status user = JStr "active").
Proof.
  split.
  - intros p user Ht Hv Hq Hs.
    rewrite (authenticateToken_verified verify db w p Ht Hv).
    unfold try_catch, bind, single. rewrite Hq. cbn.
    rewrite Hs. reflexivity.
  - unfold authenticateToken, try_catch, bind, get_req, call, single,
      authenticateToken_catch.
    destruct (truthy (token_of (Request.authorization (req w)))) eqn:Ht;
      cbn; [| discriminate].
    destruct (verify (token_of (Request.authorization (req w))))
      as [p | e] eqn:Hv; cbn.
    + destruct (users db (userId p)) as [[data error] | e] eqn:Hq; cbn.
      * destruct error as [e|]; cbn; [discriminate |].
        destruct data as [user|]; cbn; [| discriminate].
        destruct (strict_eq (User.status user) (JStr "active")) eqn:Hs;
          cbn; [| discriminate].
        intros _. exists p, user. apply strict_eq_true in Hs. auto.
      * destruct (String.eqb (Err.name e) "JsonWebTokenError");
          [| destruct (String.eqb (Err.name e) "TokenExpiredError")];
          discriminate.
    + destruct (String.eqb (Err.name e) "JsonWebTokenError");
        [| destruct (String.eqb (Err.name e) "TokenExpiredError")];
        discriminate.
Qed.

Lemma authenticateToken_success_witness :
  let w := Sample.request (JStr "Bearer tok-2") JUndefined JUndefined None in
  authenticateToken Sample.verify Sample.db w
  = (Next, {| req := Request.set_user (Sample.user Sample.u2 "client" "active")
                       (req w);
              trace := [DbSingle "users" (JStr Sample.u2)] |}).
Proof.
  intros w.
  exact (proj1 (authenticateToken_success Sample.verify Sample.db w)
           {| userId := JStr Sample.u2 |}
           (Sample.user Sample.u2 "client" "active")
           eq_refl eq_refl eq_refl eq_refl).
Defined.

(** Every path through [authenticateToken]: no token; a token that
    verifies, by what the lookup gives; a lookup or a token that throws, by
    the name of the error. *)
Ltac authenticateToken_paths verify db w :=
  unfold authenticateToken, try_catch, bind, get_req, call, single,
    authenticateToken_catch;
  destruct (truthy (token_of (Request.authorization (req w)))) eqn:Htoken;
  cbn;
  [ let p := fresh "p" in
    let e := fresh "e" in
    destruct (verify (token_of (Request.authorization (req w))))
      as [p | e] eqn:Hverify; cbn;
    [ let user := fresh "user" in
      let err := fresh "err" in
      destruct (users db (userId p)) as [[[user|] [err|]] | err] eqn:Hlookup;
      cbn;
      [ | destruct (strict_eq (User.status user) (JStr "active")) eqn:Hstatus;
          cbn
        | |
        | destruct (String.eqb (Err.name err) "JsonWebTokenError") eqn:Hjwt;
          [| destruct (String.eqb (Err.name err) "TokenExpiredError")
               eqn:Hexp ]; cbn ]
    | destruct (String.eqb (Err.name e) "JsonWebTokenError") eqn:Hjwt;
      [| destruct (String.eqb (Err.name e) "TokenExpiredError") eqn:Hexp ];
      cbn ]
  | ].

(** X2.  The verifier never touches the header or the route parameters of
    the request, and when it answers with an error the whole request,
    [req.user] included, is what it was. *)
Theorem authenticateToken_request (verify : Verifier) (db : Database)
    (w : World) :
  let w' := snd (authenticateToken verify db w) in
  Request.authorization (req w') = Request.authorization (req w)
  /\ Request.workspaceId (req w') = Request.workspaceId (req w)
  /\ Request.clientId (req w') = Request.clientId (req w)
  /\ (fst (authenticateToken verify db w) <> Next -> req w' = req w).
Proof.
  authenticateToken_paths verify db w; repeat split; auto;
    intros H; now elim H.
Qed.

(** X3.  A token that [jwt.verify] rejects with an error named neither
    [JsonWebTokenError] nor [TokenExpiredError] (a token that is not valid
    yet, say) is answered with the generic 500, after the error is logged
    and without a lookup. *)
Theorem authenticateToken_other_verify_error (verify : Verifier)
    (db : Database) (w : World) (e : Err.t) :
  truthy (token_of (Request.authorization (req w))) = true ->
  verify (token_of (Request.authorization (req w))) = Raises e ->
  Err.name e <> "JsonWebTokenError" ->
  Err.name e <> "TokenExpiredError" ->
  authenticateToken verify db w
  = (answer 500 "Authentication failed"
            "Internal server error during authentication",
     emit (LogError "Authentication error:" e) w).
Proof.
  intros Ht Hv Hjwt Hexp.
  apply String.eqb_neq in Hjwt. apply String.eqb_neq in Hexp.
  rewrite (authenticateToken_rejected verify db w e Ht Hv).
  unfold authenticateToken_catch. rewrite Hjwt, Hexp. reflexivity.
Qed.

Lemma authenticateToken_other_verify_error_witness :
  let w := Sample.request (JStr "Bearer tok-1") JUndefined JUndefined None in
  authenticateToken Sample.verify_early Sample.db w
  = (answer 500 "Authentication failed"
            "Internal server error during authentication",
     emit (LogError "Authentication error:" Sample.not_before) w).
Proof.
  intros w.
  refine (authenticateToken_other_verify_error Sample.verify_early Sample.db
            w Sample.not_before eq_refl eq_refl _ _); discriminate.
Defined.

Lemma lookups_app (evs evs' : list Event) :
  lookups (evs ++ evs') = (lookups evs ++ lookups evs')%list.
Proof. apply filter_app. Qed.

(** X4.  The verifier makes at most one lookup, in the [users] table, and
    none at all unless the header carries a token that [jwt.verify]
    accepts. *)
Theorem authenticateToken_lookups (verify : Verifier) (db : Database)
    (w : World) :
  (exists p,
      verify (token_of (Request.authorization (req w))) = Value p
      /\ truthy (token_of (Request.authorization (req w))) = true
      /\ lookups (trace (snd (authenticateToken verify db w)))
         = (lookups (trace w) ++ [DbSingle "users" (userId p)])%list)
  \/ ((truthy (token_of (Request.authorization (req w))) = false
       \/ exists e,
           verify (token_of (Request.authorization (req w))) = Raises e)
      /\ lookups (trace (snd (authenticateToken verify db w)))
         = lookups (trace w)).
Proof.
  authenticateToken_paths verify db w; rewrite ?lookups_app; cbn;
    rewrite ?app_nil_r;
    try (left; eexists; repeat split; reflexivity);
    right; split; eauto.
Qed.

(** ** The Token Verifier: the header *)

Lemma split_no_sep (sep : ascii) (a : string) :
  has_char sep a = false -> split sep a = [a].
Proof.
  induction a as [| c a IH]; simpl; [reflexivity |].
  intros H. apply orb_false_iff in H. destruct H as [Hc Ha].
  rewrite Hc, (IH Ha). reflexivity.
Qed.

Lemma split_app_sep (sep : ascii) (a b : string) :
  has_char sep a = false ->
  split sep (a ++ String sep b) = a :: split sep b.
Proof.
  induction a as [| c a IH]; simpl.
  - intros _. now rewrite Ascii.eqb_refl.
  - intros H. apply orb_false_iff in H. destruct H as [Hc Ha].
    rewrite Hc, (IH Ha). reflexivity.
Qed.

Lemma truthy_app_sep (sep : ascii) (a b : string) :
  truthy (JStr (a ++ String sep b)) = true.
Proof. destruct a; reflexivity. Qed.

Lemma token_of_app (scheme rest : string) :
  has_char " " scheme = false ->
  token_of (JStr (scheme ++ " " ++ rest)) = index (split " " rest) 0.
Proof.
  intros Hs. unfold token_of.
  change (scheme ++ " " ++ rest) with (scheme ++ String " " rest).
  rewrite truthy_app_sep, (split_app_sep " " scheme rest Hs).
  reflexivity.
Qed.

(** The verifier's action depends on the request through the token
    only. *)
Lemma authenticateToken_by_token (verify : Verifier) (db : Database)
    (w w' : World) :
  token_of (Request.authorization (req w))
  = token_of (Request.authorization (req w')) ->
  fst (authenticateToken verify db w) = fst (authenticateToken verify db w').
Proof.
  intros H.
  unfold authenticateToken at 1.
  unfold try_catch, bind, get_req, call, single, authenticateToken_catch.
  rewrite H.
  authenticateToken_paths verify db w'; reflexivity.
Qed.

(** X5.  The token is the second word of the [authorization] header, the
    words being what single spaces separate: the first word may be anything
    (nothing asks for [Bearer]) and what follows the token is dropped.  So a
    request is treated as the same token under [Bearer] would be. *)
Theorem token_is_second_word (verify : Verifier) (db : Database)
    (scheme tok junk : string) (w w' : World) :
  has_char " " scheme = false ->
  has_char " " tok = false ->
  Request.authorization (req w') = JStr ("Bearer " ++ tok) ->
  (Request.authorization (req w) = JStr (scheme ++ " " ++ tok)
   \/ Request.authorization (req w)
      = JStr (scheme ++ " " ++ tok ++ " " ++ junk)) ->
  token_of (Request.authorization (req w)) = JStr tok
  /\ fst (authenticateToken verify db w)
     = fst (authenticateToken verify db w').
Proof.
  intros Hs Ht Hw' Hw.
  assert (Htok : token_of (Request.authorization (req w)) = JStr tok).
  { destruct Hw as [Hw | Hw]; rewrite Hw, (token_of_app _ _ Hs).
    - now rewrite (split_no_sep " " tok Ht).
    - change (tok ++ " " ++ junk) with (tok ++ String " " junk).
      now rewrite (split_app_sep " " tok junk Ht). }
  split; [exact Htok |].
  apply authenticateToken_by_token.
  rewrite Htok, Hw'.
  change ("Bearer " ++ tok) with ("Bearer" ++ " " ++ tok).
  rewrite (token_of_app "Bearer" tok eq_refl).
  now rewrite (split_no_sep " " tok Ht).
Qed.

Lemma token_is_second_word_witness :
  let w := Sample.request (JStr "Basic tok-1 and more") JUndefined JUndefined
             None in
  let w' := Sample.request (JStr "Bearer tok-1") JUndefined JUndefined None in
  token_of (Request.authorization (req w)) = JStr "tok-1"
  /\ fst (authenticateToken Sample.verify Sample.db w)
     = fst (authenticateToken Sample.verify Sample.db w').
Proof.
  intros w w'.
  refine (token_is_second_word Sample.verify Sample.db "Basic" "tok-1"
            "and more" w w' eq_refl eq_refl eq_refl _).
  right. reflexivity.
Defined.

(** X6.  A header whose first word is followed by two spaces has an empty
    second word: whatever comes after, the verifier finds no token and
    answers 401 without calling [jwt.verify]. *)
Theorem double_space_no_token (verify : Verifier) (db : Database)
    (scheme rest : string) (w : World) :
  has_char " " scheme = false ->
  Request.authorization (req w) = JStr (scheme ++ "  " ++ rest) ->
  authenticateToken verify db w
  = (answer 401 "Access token required"
            "Please provide a valid authentication token", w).
Proof.
  intros Hs Hw.
  assert (Htok : token_of (Request.authorization (req w)) = JStr "").
  { rewrite Hw.
    change (scheme ++ "  " ++ rest) with (scheme ++ " " ++ String " " rest).
    rewrite (token_of_app _ _ Hs). reflexivity. }
  unfold authenticateToken, try_catch, bind, get_req.
  rewrite Htok. reflexivity.
Qed.

Lemma double_space_no_token_witness :
  let w := Sample.request (JStr "Bearer  tok-1") JUndefined JUndefined None in
  authenticateToken Sample.verify Sample.db w
  = (answer 401 "Access token required"
            "Please provide a valid authentication token", w).
Proof.
  intros w.
  exact (double_space_no_token Sample.verify Sample.db "Bearer" "tok-1" w
           eq_refl eq_refl).
Defined.

(** ** The Role Gate and the routes that use it *)

(** X7.  The Role Gate leaves the request and the trace alone, whatever it
    answers, and a request without an identity gets 401 whatever the
    allow-list, an empty one and one that holds [undefined] included. *)
Theorem requireRole_without_identity (roles : roles_arg) (w : World) :
  snd (requireRole roles w) = w
  /\ (Request.user (req w) = None ->
      fst (requireRole roles w)
      = answer 401 "Authentication required"
               "Please log in to access this resource").
Proof.
  unfold requireRole.
  destruct (Request.user (req w)) as [u|].
  - destruct (includes (allowedRoles roles) (User.role u)); simpl;
      split; [reflexivity | discriminate | reflexivity | discriminate].
  - split; reflexivity.
Qed.

(** A role given alone, [requireRole('admin')], is the allow-list of
    that one role: the gate lets through exactly the identities whose role
    is that value, and the two forms answer alike. *)
Lemma requireRole_single_role (role : jsval) (w : World) (u : User.t) :
  Request.user (req w) = Some u ->
  requireRole (RolesOther role) w = requireRole (RolesArray [role]) w
  /\ (fst (requireRole (RolesOther role) w) = Next <-> User.role u = role).
Proof.
  intros Hu. split; [reflexivity |].
  unfold requireRole. rewrite Hu. simpl.
  destruct (strict_eq role (User.role u)) eqn:H; simpl.
  - apply strict_eq_true in H. split; auto.
  - apply strict_eq_false in H. split; [discriminate | congruence].
Qed.


(** The Role Gate changes nothing. *)
Lemma requireRole_world (roles : roles_arg) (w : World) :
  snd (requireRole roles w) = w.
Proof.
  unfold requireRole.
  destruct (Request.user (req w)) as [u |]; [| reflexivity].
  destruct (includes (allowedRoles roles) (User.role u)); reflexivity.
Qed.

(** The Role Gate on a request that has an identity. *)
Lemma requireRole_next_iff (roles : roles_arg) (w : World) (u : User.t) :
  Request.user (req w) = Some u ->
  fst (requireRole roles w) = Next <-> In (User.role u) (allowedRoles roles).
Proof.
  intros Hu. unfold requireRole. rewrite Hu, <- includes_In.
  destruct (includes (allowedRoles roles) (User.role u)); simpl;
    split; auto; discriminate.
Qed.

Lemma requireRole_identified (roles : roles_arg) (w : World) (u : User.t) :
  Request.user (req w) = Some u ->
  fst (requireRole roles w)
  <> answer 401 "Authentication required"
            "Please log in to access this resource".
Proof.
  intros Hu. unfold requireRole. rewrite Hu.
  destruct (includes (allowedRoles roles) (User.role u)); simpl;
    discriminate.
Qed.

(** After [authenticateToken] has called [next()], [requireRole] runs on
    the request as the verifier left it. *)
Lemma chain_verifier_role (verify : Verifier) (db : Database)
    (roles : roles_arg) (w : World) :
  chain [authenticateToken verify db; requireRole roles] w
  = match authenticateToken verify db w with
    | (Next, w') => requireRole roles w'
    | (Send r, w') => (Send r, w')
    end.
Proof.
  simpl. destruct (authenticateToken verify db w) as [[| r] w'];
    [| reflexivity].
  destruct (requireRole roles w') as [[| r] w'']; reflexivity.
Qed.

(** The verifier's run on a token that verifies and an active user. *)
Lemma authenticateToken_active (verify : Verifier) (db : Database)
    (w : World) (p : Payload) (user : User.t) :
  truthy (token_of (Request.authorization (req w))) = true ->
  verify (token_of (Request.authorization (req w))) = Value p ->
  users db (userId p) = Value (Query.found user) ->
  User.status user = JStr "active" ->
  authenticateToken verify db w
  = (Next, {| req := Request.set_user user (req w);
              trace := trace w ++ [DbSingle "users" (userId p)] |}).
Proof.
  intros Ht Hv Hq Hs.
  rewrite (authenticateToken_verified verify db w p Ht Hv).
  unfold try_catch, bind, single. rewrite Hq. cbn.
  rewrite Hs. reflexivity.
Qed.

(** When the verifier has called [next()]: what led there and what it
    left. *)
Lemma authenticateToken_next_inv (verify : Verifier) (db : Database)
    (w w' : World) :
  authenticateToken verify db w = (Next, w') ->
  exists p user,
    truthy (token_of (Request.authorization (req w))) = true
    /\ verify (token_of (Request.authorization (req w))) = Value p
    /\ users db (userId p) = Value (Query.found user)
    /\ User.status user = JStr "active"
    /\ w' = {| req := Request.set_user user (req w);
               trace := trace w ++ [DbSingle "users" (userId p)] |}.
Proof.
  authenticateToken_paths verify db w; try discriminate.
  intros H. inversion H. exists p, user.
  apply strict_eq_true in Hstatus. repeat split; auto.
Qed.

(** X9.  Behind [authenticateToken] the Role Gate never answers
    ['Authentication required']: when the verifier has called [next()] there
    is an identity on the request, and the role that is tested is the role
    of the row the lookup found. *)
Theorem role_gate_behind_verifier (verify : Verifier) (db : Database)
    (roles : roles_arg) (w : World) :
  fst (chain [authenticateToken verify db; requireRole roles] w)
  <> answer 401 "Authentication required"
            "Please log in to access this resource"
  /\ (forall p user,
         truthy (token_of (Request.authorization (req w))) = true ->
         verify (token_of (Request.authorization (req w))) = Value p ->
         users db (userId p) = Value (Query.found user) ->
         User.status user = JStr "active" ->
         (fst (chain [authenticateToken verify db; requireRole roles] w) = Next
          <-> In (User.role user) (allowedRoles roles))).
Proof.
  rewrite chain_verifier_role. split.
  - destruct (authenticateToken verify db w) as [[| r] w'] eqn:Hrun.
    + apply authenticateToken_next_inv in Hrun.
      destruct Hrun as (p & user & _ & _ & _ & _ & Hw'). subst w'.
      match goal with
      | |- fst (requireRole ?r ?w0) <> _ =>
          apply (requireRole_identified r w0 user eq_refl)
      end.
    + revert Hrun. authenticateToken_paths verify db w;
        intros H; inversion H; discriminate.
  - intros p user Ht Hv Hq Hs.
    rewrite (authenticateToken_active verify db w p user Ht Hv Hq Hs).
    match goal with
    | |- fst (requireRole ?r ?w0) = Next <-> _ =>
        apply (requireRole_next_iff r w0 user eq_refl)
    end.
Qed.

(** ** The Ownership Gate: the other ways through and out *)

(** X10.  Without an identity on the request (the gate used with no
    verifier before it) reading [req.user.id] throws: the gate logs the
    error and answers 500, and makes no lookup. *)
Theorem gate_without_identity (db : Database) (w : World) :
  Request.user (req w) = None ->
  requireWorkspaceAccess db w
  = (answer 500 "Access check failed"
            "Internal server error during access verification",
     emit (LogError "Workspace access check error:" type_error) w).
Proof.
  intros Hu. unfold requireWorkspaceAccess, try_catch, bind, get_req.
  rewrite Hu. reflexivity.
Qed.

Lemma gate_without_identity_witness :
  let w := Sample.request JUndefined (JStr Sample.w1) (JStr Sample.c1) None in
  requireWorkspaceAccess Sample.db w
  = (answer 500 "Access check failed"
            "Internal server error during access verification",
     emit (LogError "Workspace access check error:" type_error) w).
Proof.
  intros w. exact (gate_without_identity Sample.db w eq_refl).
Defined.

(** X11.  On a request with neither a workspace id nor a client id the gate
    calls [next()] for every caller, with no lookup: such a route is guarded
    by the stages before it alone. *)
Theorem gate_without_ids (db : Database) (w : World) (u : User.t) :
  Request.user (req w) = Some u ->
  truthy (Request.workspaceId (req w)) = false ->
  truthy (Request.clientId (req w)) = false ->
  requireWorkspaceAccess db w = (Next, w).
Proof.
  intros Hu Hwid Hcid.
  destruct (strict_eq (User.role u) (JStr "admin")) eqn:Hrole.
  - unfold requireWorkspaceAccess, try_catch, bind, get_req.
    rewrite Hu, Hrole. reflexivity.
  - apply strict_eq_false in Hrole.
    rewrite (gate_past_workspace db w w u Hu Hrole
               (workspaceCheck_skipped db _ _ w Hwid)).
    now apply after_workspaceCheck_skipped.
Qed.

Lemma gate_without_ids_witness :
  let w := Sample.request JUndefined JUndefined (JStr "")
             (Some (Sample.user Sample.u3 "client" "active")) in
  requireWorkspaceAccess Sample.down w = (Next, w).
Proof.
  intros w.
  exact (gate_without_ids Sample.down w
           (Sample.user Sample.u3 "client" "active")
           eq_refl eq_refl eq_refl).
Defined.

(** X12.  A lookup that throws (the awaited promise rejects) ends in the
    [catch] block: the error is logged and the answer is 500.  When it is
    the workspace lookup that throws, the client lookup is not made. *)
Theorem gate_lookup_throws (db : Database) (w : World) (u : User.t)
    (e : Err.t) :
  Request.user (req w) = Some u ->
  User.role u <> JStr "admin" ->
  (truthy (Request.workspaceId (req w)) = true ->
   workspaces db (Request.workspaceId (req w)) = Raises e ->
   requireWorkspaceAccess db w
   = (answer 500 "Access check failed"
             "Internal server error during access verification",
      emit (LogError "Workspace access check error:" e)
        (emit (DbSingle "workspaces" (Request.workspaceId (req w))) w)))
  /\ (forall w1,
         workspaceCheck db (User.id u) (Request.workspaceId (req w)) w
         = (Normal tt, w1) ->
         truthy (Request.clientId (req w)) = true ->
         clients db (Request.clientId (req w)) = Raises e ->
         requireWorkspaceAccess db w
         = (answer 500 "Access check failed"
                   "Internal server error during access verification",
            emit (LogError "Workspace access check error:" e)
              (emit (DbSingle "clients" (Request.clientId (req w))) w1))).
Proof.
  intros Hu Hrole. split.
  - intros Ht Hq. rewrite (gate_blocks db w u Hu Hrole).
    unfold try_catch, bind, workspaceCheck, when, single.
    rewrite Ht, Hq. reflexivity.
  - intros w1 Hws Ht Hq.
    rewrite (gate_past_workspace db w w1 u Hu Hrole Hws).
    unfold after_workspaceCheck, try_catch, bind, clientCheck, when, single.
    rewrite Ht, Hq. reflexivity.
Qed.

Lemma gate_lookup_throws_witness :
  let w := Sample.request JUndefined (JStr Sample.w1) (JStr Sample.c1)
             (Some (Sample.user Sample.u1 "creator" "active")) in
  requireWorkspaceAccess Sample.rejecting w
  = (answer 500 "Access check failed"
            "Internal server error during access verification",
     emit (LogError "Workspace access check error:" Sample.rejected)
       (emit (DbSingle "workspaces" (JStr Sample.w1)) w)).
Proof.
  intros w.
  refine (proj1 (gate_lookup_throws Sample.rejecting w
                   (Sample.user Sample.u1 "creator" "active")
                   Sample.rejected eq_refl _) eq_refl eq_refl).
  discriminate.
Defined.

(** X13.  For a caller who is not an admin the gate calls [next()] exactly
    when both blocks have nothing against the caller: each id that is
    present must name a row that is found, without error, and that the
    caller may use.  The two conditions do not bear on one another. *)
Theorem gate_next_iff (db : Database) (w : World) (u : User.t) :
  Request.user (req w) = Some u ->
  User.role u <> JStr "admin" ->
  fst (requireWorkspaceAccess db w) = Next
  <-> workspace_ok db u (Request.workspaceId (req w))
      /\ client_ok db u (Request.clientId (req w)).
Proof.
  intros Hu Hrole. split.
  - intros H.
    destruct (gate_next_needs_both db w u Hu Hrole H) as (w1 & Hws & Hcl).
    split.
    + apply workspaceCheck_normal_iff with (w := w). eauto.
    + now apply after_workspaceCheck_next_iff with (w := w1).
  - intros [Hws Hcl].
    apply (workspaceCheck_normal_iff db u _ w) in Hws.
    destruct Hws as (w1 & Hws).
    rewrite (gate_past_workspace db w w1 u Hu Hrole Hws).
    now apply after_workspaceCheck_next_iff.
Qed.

Lemma gate_next_iff_witness :
  let u := Sample.user Sample.u1 "agency" "active" in
  let w := Sample.request JUndefined (JStr Sample.w1) (JStr Sample.c1)
             (Some u) in
  fst (requireWorkspaceAccess Sample.db w) = Next
  <-> workspace_ok Sample.db u (JStr Sample.w1)
      /\ client_ok Sample.db u (JStr Sample.c1).
Proof.
  intros u w.
  refine (gate_next_iff Sample.db w u eq_refl _). discriminate.
Defined.

(** Every path through [requireWorkspaceAccess], one goal for each. *)
Ltac gate_red :=
  cbv beta iota zeta delta
    [requireWorkspaceAccess requireWorkspaceAccess_catch try_catch bind
     get_req throw next ret reply when single workspaceCheck clientCheck
     fst snd Query.data Query.error].

Ltac gate_client_paths db w u :=
  destruct (truthy (Request.clientId (req w))) eqn:?Hcid; gate_red;
  [ let c := fresh "c" in
    destruct (clients db (Request.clientId (req w)))
      as [[[c |] [?e |]] | ?e] eqn:?Hcl; gate_red;
    [ | destruct (strict_eq (User.role u) (JStr "client")) eqn:?Hclient;
        gate_red;
        [ destruct (strict_eq (Client.user_id c) (JStr (User.id u)))
            eqn:?Hlinked
        | destruct (strict_eq (nested_owner_id c) (JStr (User.id u)))
            eqn:?Howns ];
        gate_red
      | | | ]
  | ].

Ltac gate_paths db w :=
  gate_red;
  let u := fresh "u" in
  destruct (Request.user (req w)) as [u |] eqn:?Huser; gate_red;
  [ destruct (strict_eq (User.role u) (JStr "admin")) eqn:?Hadmin; gate_red;
    [ | destruct (truthy (Request.workspaceId (req w))) eqn:?Hwid; gate_red;
        [ let ws := fresh "ws" in
          destruct (workspaces db (Request.workspaceId (req w)))
            as [[[ws |] [?e |]] | ?e] eqn:?Hws; gate_red;
          [ | match goal with
              | |- context [negb ?a && negb ?b] =>
                  destruct (negb a && negb b) eqn:?Hdeny; gate_red;
                  [ | gate_client_paths db w u ]
              end
            | | | ]
        | gate_client_paths db w u ] ]
  | ];
  cbn [negb andb]; gate_red; cbn [req trace emit fst snd].

(** X14.  Whatever the gate answers, it leaves the request as it was, and
    the lookups it has made are the workspace lookup (if any) followed by
    the client lookup (if any), each at most once: it never reads the
    [users] table and never looks a client up before the workspace. *)
Theorem gate_trace (db : Database) (w : World) :
  let w' := snd (requireWorkspaceAccess db w) in
  let ws := DbSingle "workspaces" (Request.workspaceId (req w)) in
  let cl := DbSingle "clients" (Request.clientId (req w)) in
  req w' = req w
  /\ exists made,
      lookups (trace w') = (lookups (trace w) ++ made)%list
      /\ In made [[]; [ws]; [cl]; [ws; cl]].
Proof.
  intros w' ws cl. subst w' ws cl.
  gate_paths db w.
  all: split; [reflexivity |].
  all: rewrite ?lookups_app; cbn [lookups filter is_lookup];
    rewrite ?app_nil_r, <- ?app_assoc; cbn [app].
  all: first
    [ exists []; split; [now rewrite app_nil_r | simpl; tauto]
    | eexists; split; [reflexivity | simpl; tauto] ].
Qed.

(** ** The answers of the three stages *)

(** X15.  The statuses each stage can answer with: the verifier 401, 403 or
    500 (never 404), the Role Gate 401 or 403, the Ownership Gate 403, 404
    or 500 (never 401). *)
Theorem stage_statuses (verify : Verifier) (db : Database)
    (roles : roles_arg) (w : World) (r : Response.t) :
  (fst (authenticateToken verify db w) = Send r ->
   In (Response.status r) [401; 403; 500])
  /\ (fst (requireRole roles w) = Send r ->
      In (Response.status r) [401; 403])
  /\ (fst (requireWorkspaceAccess db w) = Send r ->
      In (Response.status r) [403; 404; 500]).
Proof.
  split; [| split].
  - authenticateToken_paths verify db w;
      intros H; inversion H; simpl; tauto.
  - unfold requireRole.
    destruct (Request.user (req w)) as [u |];
      [destruct (includes (allowedRoles roles) (User.role u)) |];
      simpl; intros H; inversion H; simpl; tauto.
  - gate_paths db w; intros H; inversion H; simpl; tauto.
Qed.

(** ** The error handler *)

Ltac errorHandler_red :=
  cbv beta iota zeta delta
    [errorHandler by_status by_upstream by_name by_code mapped
     Handled.status Handled.body Handled.logged Body.error Body.stack
     Body.details Body.timestamp Body.path Mapped.status Mapped.message
     Mapped.details].

Ltac errorHandler_paths :=
  errorHandler_red;
  repeat match goal with
         | |- context [if ?b then _ else _] => destruct b eqn:?
         end;
  errorHandler_red.

(** X16.  An error that carries a [status] of its own (a number other than
    0) is answered with that status and with its own message, whatever its
    code, its name and the status of an upstream response. *)
Theorem errorHandler_custom_status (node_env : jsval) (now : string)
    (err : Failure.t) (req : Incoming.t) (n : nat) :
  Failure.status err = Some (S n) ->
  Handled.status (errorHandler node_env now err req) = S n
  /\ Body.error (Handled.body (errorHandler node_env now err req))
     = Failure.message err.
Proof.
  intros Hs. errorHandler_red. rewrite Hs. cbn [truthy_number].
  errorHandler_red. split; reflexivity.
Qed.

Lemma errorHandler_custom_status_witness :
  Handled.status
    (errorHandler (JStr "production") "2025-08-12T19:22:15.000Z"
       Sample.teapot Sample.incoming) = 418
  /\ Body.error
       (Handled.body
          (errorHandler (JStr "production") "2025-08-12T19:22:15.000Z"
             Sample.teapot Sample.incoming))
     = JStr "I am a teapot".
Proof.
  exact (errorHandler_custom_status (JStr "production")
           "2025-08-12T19:22:15.000Z" Sample.teapot Sample.incoming 417
           eq_refl).
Defined.

(** X17.  An error without a [status] of its own is answered with one of
    the handler's ten fixed pairs of status and text; the message of the
    error goes to the log. *)
Theorem errorHandler_own_answer (node_env : jsval) (now : string)
    (err : Failure.t) (req : Incoming.t) :
  truthy_number (Failure.status err) = false ->
  In (Handled.status (errorHandler node_env now err req),
      Body.error (Handled.body (errorHandler node_env now err req)))
     own_answers
  /\ Logged.error (Handled.logged (errorHandler node_env now err req))
     = Failure.message err.
Proof.
  intros Hs. split; [| reflexivity].
  errorHandler_red. rewrite Hs.
  errorHandler_paths;
    unfold own_answers; simpl In;
    repeat (first [left; reflexivity | right]).
Qed.

Lemma errorHandler_own_answer_witness :
  Handled.status
    (errorHandler (JStr "production") "2025-08-12T19:22:15.000Z"
       Sample.crash Sample.incoming) = 500
  /\ Body.error
       (Handled.body
          (errorHandler (JStr "production") "2025-08-12T19:22:15.000Z"
             Sample.crash Sample.incoming))
     = JStr "Internal Server Error"
  /\ In (500, JStr "Internal Server Error") own_answers.
Proof.
  split; [reflexivity | split; [reflexivity |]].
  exact (proj1 (errorHandler_own_answer (JStr "production")
                  "2025-08-12T19:22:15.000Z" Sample.crash Sample.incoming
                  eq_refl)).
Defined.

(** X18.  The stack and the details of the error are part of the body when
    [NODE_ENV] is ['development'] and only then: otherwise the body has
    neither field, also for a validation error, whose details the handler
    has copied but does not send.  The stack is logged in every
    environment. *)
Theorem errorHandler_environment (node_env : jsval) (now : string)
    (err : Failure.t) (req : Incoming.t) :
  let h := errorHandler node_env now err req in
  (node_env = JStr "development" ->
   Body.stack (Handled.body h) = Some (Failure.stack err)
   /\ Body.details (Handled.body h) = Some (Failure.details err))
  /\ (node_env <> JStr "development" ->
      Body.stack (Handled.body h) = None
      /\ Body.details (Handled.body h) = None)
  /\ Logged.stack (Handled.logged h) = Failure.stack err
  /\ Body.timestamp (Handled.body h) = now
  /\ Body.path (Handled.body h) = Incoming.path req.
Proof.
  intros h. subst h. errorHandler_red.
  split; [| split; [| repeat split]].
  - intros ->. split; reflexivity.
  - intros H. apply strict_eq_false in H. rewrite H. split; reflexivity.
Qed.

(** X19.  The status of an upstream response, when the error has no status
    of its own, goes before the code and the name of the error: a 429 from
    the AI service is passed on as 429, and a 401 from it (a bad API key) is
    answered 500, never 401. *)
Theorem errorHandler_upstream (node_env : jsval) (now : string)
    (err : Failure.t) (req : Incoming.t) :
  truthy_number (Failure.status err) = false ->
  let h := errorHandler node_env now err req in
  (Failure.upstream err = Some 429 ->
   Handled.status h = 429
   /\ Body.error (Handled.body h)
      = JStr "AI service rate limit exceeded. Please try again later.")
  /\ (Failure.upstream err = Some 401 ->
      Handled.status h = 500
      /\ Body.error (Handled.body h) = JStr "AI service configuration error").
Proof.
  intros Hs h. subst h. errorHandler_red. rewrite Hs.
  split; intros Hu; rewrite Hu; cbn [truthy_number is_number Nat.eqb];
    split; reflexivity.
Qed.

Lemma errorHandler_upstream_witness :
  Handled.status
    (errorHandler JUndefined "2025-08-12T19:22:15.000Z" Sample.bad_key
       Sample.incoming) = 500
  /\ Body.error
       (Handled.body
          (errorHandler JUndefined "2025-08-12T19:22:15.000Z" Sample.bad_key
             Sample.incoming))
     = JStr "AI service configuration error".
Proof.
  exact (proj2 (errorHandler_upstream JUndefined "2025-08-12T19:22:15.000Z"
                  Sample.bad_key Sample.incoming eq_refl) eq_refl).
Defined.

(** X20.  For an error with no status of its own, no upstream 429 or 401 and
    a name that is none of the three the handler knows, the code decides:
    the four database codes give 409, 400, 400 and 404, and any other code,
    or none, gives the plain 500. *)
Theorem errorHandler_codes (node_env : jsval) (now : string)
    (err : Failure.t) (req : Incoming.t) :
  truthy_number (Failure.status err) = false ->
  is_number (Failure.upstream err) 429 = false ->
  is_number (Failure.upstream err) 401 = false ->
  Failure.name err <> JStr "ValidationError" ->
  Failure.name err <> JStr "JsonWebTokenError" ->
  Failure.name err <> JStr "TokenExpiredError" ->
  let h := errorHandler node_env now err req in
  let answer := (Handled.status h, Body.error (Handled.body h)) in
  (Failure.code err = JStr "23505" ->
   answer = (409, JStr "Resource already exists"))
  /\ (Failure.code err = JStr "23503" ->
      answer = (400, JStr "Invalid reference to related resource"))
  /\ (Failure.code err = JStr "23502" ->
      answer = (400, JStr "Required field is missing"))
  /\ (Failure.code err = JStr "PGRST116" ->
      answer = (404, JStr "Resource not found"))
  /\ (~ In (Failure.code err)
          [JStr "23505"; JStr "23503"; JStr "23502"; JStr "PGRST116"] ->
      answer = (500, JStr "Internal Server Error")).
Proof.
  intros Hs H429 H401 Hv Hj He h answer. subst answer h.
  apply strict_eq_false in Hv. apply strict_eq_false in Hj.
  apply strict_eq_false in He.
  errorHandler_red. rewrite Hs, H429, H401, Hv, Hj, He.
  repeat split; intros Hc.
  1-4: rewrite Hc; cbn [truthy strict_eq String.eqb Ascii.eqb Bool.eqb negb];
    now destruct (truthy_number (Failure.upstream err)).
  assert (H1 : strict_eq (Failure.code err) (JStr "23505") = false).
  { apply strict_eq_false. intros H. apply Hc. rewrite H. simpl. tauto. }
  assert (H2 : strict_eq (Failure.code err) (JStr "23503") = false).
  { apply strict_eq_false. intros H. apply Hc. rewrite H. simpl. tauto. }
  assert (H3 : strict_eq (Failure.code err) (JStr "23502") = false).
  { apply strict_eq_false. intros H. apply Hc. rewrite H. simpl. tauto. }
  assert (H4 : strict_eq (Failure.code err) (JStr "PGRST116") = false).
  { apply strict_eq_false. intros H. apply Hc. rewrite H. simpl. tauto. }
  rewrite H1, H2, H3, H4.
  destruct (truthy (Failure.code err));
    now destruct (truthy_number (Failure.upstream err)).
Qed.

Lemma errorHandler_codes_witness :
  (Handled.status
     (errorHandler (JStr "production") "2025-08-12T19:22:15.000Z"
        Sample.duplicate Sample.incoming),
   Body.error
     (Handled.body
        (errorHandler (JStr "production") "2025-08-12T19:22:15.000Z"
           Sample.duplicate Sample.incoming)))
  = (409, JStr "Resource already exists").
Proof.
  refine (proj1 (errorHandler_codes (JStr "production")
                   "2025-08-12T19:22:15.000Z" Sample.duplicate
                   Sample.incoming eq_refl eq_refl eq_refl _ _ _) eq_refl);
    discriminate.
Defined.

(** ** The handlers of [routes/users.js] *)

Ltac handler_red :=
  cbv beta iota zeta delta
    [serve hbind hret hstop hthrow hdo hawait current_user text_of
     getUserById deleteUser updateUser getUserStats fst snd Pg.error Pg.data
     Pg.found Pg.failed].

Ltac handler_paths :=
  handler_red;
  repeat (match goal with
          | |- context [match ?x with _ => _ end] =>
              lazymatch x with
              | context [match _ with _ => _ end] => fail
              | _ => destruct x eqn:?
              end
          end;
          handler_red).

(** The test that opens the handlers of a profile: the caller is the user
    in the path or an admin. *)
Lemma self_or_admin_test (id : string) (u : User.t) :
  negb (String.eqb id (User.id u))
  && negb (strict_eq (User.role u) (JStr "admin")) = false
  <-> id = User.id u \/ User.role u = JStr "admin".
Proof.
  rewrite <- String.eqb_eq, <- strict_eq_true.
  destruct (String.eqb id (User.id u)),
    (strict_eq (User.role u) (JStr "admin")); simpl;
    split; auto; intros [H | H]; discriminate.
Qed.

(** X21.  [GET /:id]: a caller who asks for the profile of another user and
    is not an admin gets 403 before anything is read.  So whenever the
    handler reads the row or sends it, the caller is the user asked for or
    an admin, and the row read is the one asked for. *)
Theorem getUserById_access (R : Type) (select : string -> awaited R)
    (id : string) (u : User.t) :
  (id <> User.id u -> User.role u <> JStr "admin" ->
   getUserById select id (Some u)
   = (Fail 403 "Access denied" "You can only view your own profile", []))
  /\ (forall id',
         In (SelectUser id') (snd (getUserById select id (Some u))) ->
         id' = id /\ (id = User.id u \/ User.role u = JStr "admin"))
  /\ (forall message data,
         fst (getUserById select id (Some u)) = Success message data ->
         (id = User.id u \/ User.role u = JStr "admin")
         /\ select id = Resolved {| Pg.data := data; Pg.error := None |}).
Proof.
  split; [| split].
  - intros Hid Hrole. handler_red.
    destruct (negb _ && negb _) eqn:Hdeny; [reflexivity |].
    apply self_or_admin_test in Hdeny. destruct Hdeny; contradiction.
  - intros id'. handler_paths; simpl; intros Hin;
      try contradiction;
      destruct Hin as [Hin | []]; injection Hin as <-;
      (split; [reflexivity | now apply self_or_admin_test]).
  - intros message data. handler_paths; simpl; intros H;
      try discriminate.
    injection H as <- <-. split; [now apply self_or_admin_test | reflexivity].
Qed.

Lemma getUserById_access_witness :
  getUserById Sample.select Sample.u1
    (Some (Sample.user Sample.u2 "agency" "active"))
  = (Fail 403 "Access denied" "You can only view your own profile", []).
Proof.
  refine (proj1 (getUserById_access Existing.t Sample.select Sample.u1
                   (Sample.user Sample.u2 "agency" "active")) _ _);
    discriminate.
Defined.

(** Where the handler of [DELETE /:id] issues its deletion. *)
Lemma deleteUser_targets (select : string -> awaited Existing.t)
    (delete : string -> awaited unit) (id : string) (u : User.t) :
  (id = User.id u ->
   deleteUser select delete id (Some u)
   = (Fail 400 "Cannot delete own account"
           "You cannot delete your own account", []))
  /\ (forall id',
         In (DeleteUser id') (snd (deleteUser select delete id (Some u))) ->
         id' = id
         /\ id <> User.id u
         /\ exists row, select id = Resolved (Pg.found row)).
Proof.
  split.
  - intros ->. handler_red. now rewrite String.eqb_refl.
  - intros id'. handler_paths; simpl; intros Hin;
      repeat match goal with
             | H : _ \/ _ |- _ => destruct H
             | H : False |- _ => contradiction
             | H : SelectUser _ = DeleteUser _ |- _ => discriminate H
             | H : Info _ = DeleteUser _ |- _ => discriminate H
             | H : DeleteUser _ = DeleteUser _ |- _ => injection H as <-
             end;
      (split; [reflexivity
              | split; [now apply String.eqb_neq | eexists; reflexivity]]).
Qed.

(** X22.  [DELETE /:id]: the handler tells the caller from the user in the
    path by comparing the two ids as strings.  It answers 400, with nothing
    read, exactly when they are the same string.  For any other string, also
    the caller's own uuid spelled in another letter case, it looks the row
    up, and once the row is found without error it issues the deletion for
    the id in the path.  A deletion is issued in no other case. *)
Theorem deleteUser_guards (select : string -> awaited Existing.t)
    (delete : string -> awaited unit) (id : string) (u : User.t) :
  (deleteUser select delete id (Some u)
   = (Fail 400 "Cannot delete own account"
           "You cannot delete your own account", [])
   <-> id = User.id u)
  /\ (forall id',
         In (DeleteUser id') (snd (deleteUser select delete id (Some u))) ->
         id' = id
         /\ id <> User.id u
         /\ exists row, select id = Resolved (Pg.found row))
  /\ (forall row,
         id <> User.id u ->
         select id = Resolved (Pg.found row) ->
         In (DeleteUser id) (snd (deleteUser select delete id (Some u)))).
Proof.
  split; [| split].
  - split.
    + handler_paths; simpl; intros H;
        solve [now apply String.eqb_eq | discriminate H].
    + apply (proj1 (deleteUser_targets select delete id u)).
  - apply (proj2 (deleteUser_targets select delete id u)).
  - intros row Hne Hrow. apply String.eqb_neq in Hne.
    handler_red. rewrite Hne, Hrow. handler_red.
    destruct (delete id) as [[d [e |]] | e]; simpl; auto.
Qed.

Lemma deleteUser_guards_witness :
  let admin :=
    {| User.id := Sample.ua; User.role := JStr "admin";
       User.status := JStr "active" |} in
  Sample.select_uuid Sample.ua_capitals = Sample.select_uuid (User.id admin)
  /\ In (DeleteUser Sample.ua_capitals)
        (snd (deleteUser Sample.select_uuid Sample.delete Sample.ua_capitals
                (Some admin))).
Proof.
  intros admin. split; [reflexivity |].
  refine (proj2 (proj2 (deleteUser_guards Sample.select_uuid Sample.delete
                          Sample.ua_capitals admin))
            {| Existing.email := "root@example.com" |} _ eq_refl).
  discriminate.
Defined.

Lemma chain_cons (m : Middleware) (ms : list Middleware) (w : World) :
  chain (m :: ms) w
  = match m w with
    | (Next, w') => chain ms w'
    | (Send r, w') => (Send r, w')
    end.
Proof. reflexivity. Qed.

(** When the guard of the admin routes has called [next()]. *)
Lemma admin_guard_next_inv (verify : Verifier) (db : Database)
    (rest : list Middleware) (w w' : World) :
  chain (authenticateToken verify db
         :: requireRole (RolesArray [JStr "admin"]) :: rest) w = (Next, w') ->
  exists p admin,
    truthy (token_of (Request.authorization (req w))) = true
    /\ verify (token_of (Request.authorization (req w))) = Value p
    /\ users db (userId p) = Value (Query.found admin)
    /\ User.status admin = JStr "active"
    /\ User.role admin = JStr "admin"
    /\ chain rest {| req := Request.set_user admin (req w);
                     trace := trace w ++ [DbSingle "users" (userId p)] |}
       = (Next, w').
Proof.
  rewrite chain_cons.
  destruct (authenticateToken verify db w) as [[| r] w1] eqn:Hrun;
    [| discriminate].
  apply authenticateToken_next_inv in Hrun.
  destruct Hrun as (p & admin & Ht & Hv & Hq & Hs & ->).
  rewrite chain_cons.
  match goal with
  | |- context [requireRole ?r ?w0] =>
      pose proof (requireRole_next_iff r w0 admin eq_refl) as Hrole;
      pose proof (requireRole_world r w0) as Hsame
  end.
  destruct (requireRole _ _) as [[| r] w2]; [| discriminate].
  simpl in Hsame. subst w2.
  intros Hrest. exists p, admin.
  assert (Hin : In (User.role admin) [JStr "admin"]) by now apply Hrole.
  destruct Hin as [Hin | []]. repeat split; auto.
Qed.

(** X23.  [DELETE /:id] end to end.  With a validator that leaves the
    request alone, a deletion is issued only when the token verifies and
    its subject is found as an active admin, the id in the path is not the
    same string as the admin's id, and the row of the id in the path was
    found. *)
Theorem deleteUserRoute_deletes_for_admins (verify : Verifier)
    (db : Database) (validateObjectId : Middleware)
    (select : string -> awaited Existing.t)
    (delete : string -> awaited unit) (id id' : string) (w : World)
    (reply : Reply unit) (ops : list Op) :
  (forall w0, req (snd (validateObjectId w0)) = req w0) ->
  deleteUserRoute verify db validateObjectId select delete id w
  = inr (reply, ops) ->
  In (DeleteUser id') ops ->
  exists p admin row,
    verify (token_of (Request.authorization (req w))) = Value p
    /\ users db (userId p) = Value (Query.found admin)
    /\ User.status admin = JStr "active"
    /\ User.role admin = JStr "admin"
    /\ id' = id
    /\ id <> User.id admin
    /\ select id = Resolved (Pg.found row).
Proof.
  intros Hval. unfold deleteUserRoute.
  destruct (chain _ w) as [[| r] w'] eqn:Hrun; [| discriminate].
  apply admin_guard_next_inv in Hrun.
  destruct Hrun as (p & admin & _ & Hv & Hq & Hs & Hr & Hrest).
  rewrite chain_cons in Hrest.
  match type of Hrest with
  | context [validateObjectId ?w0] => pose proof (Hval w0) as Hreq
  end.
  destruct (validateObjectId _) as [[| r] w2]; [| discriminate].
  simpl in Hrest, Hreq. injection Hrest as <-. rewrite Hreq.
  intros Hrun Hin. injection Hrun as Hrun.
  cbn [Request.user Request.set_user] in Hrun.
  apply (f_equal snd) in Hrun. simpl snd in Hrun at 2. rewrite <- Hrun in Hin.
  pose proof (proj2 (deleteUser_targets select delete id admin) id' Hin)
    as (Hid & Hother & row & Hrow).
  exists p, admin, row. repeat split; auto.
Qed.

Lemma deleteUserRoute_deletes_for_admins_witness :
  let w := Sample.request (JStr "Bearer tok-1") JUndefined JUndefined None in
  exists p admin row,
    Sample.verify (token_of (Request.authorization (req w))) = Value p
    /\ users Sample.db_admin (userId p) = Value (Query.found admin)
    /\ User.status admin = JStr "active"
    /\ User.role admin = JStr "admin"
    /\ Sample.u2 = Sample.u2
    /\ Sample.u2 <> User.id admin
    /\ Sample.select Sample.u2 = Resolved (Pg.found row).
Proof.
  intros w.
  refine (deleteUserRoute_deletes_for_admins Sample.verify Sample.db_admin
            Sample.pass Sample.select Sample.delete Sample.u2 Sample.u2 w
            (Success (Some "User deleted successfully") tt)
            _ (fun _ => eq_refl) eq_refl _).
  simpl. right. left. reflexivity.
Defined.

(** Where the handler of [PUT /:id] issues its update, and with what. *)
Lemma updateUser_targets (R : Type) (js : Builtins)
    (select : string -> awaited Existing.t)
    (selectOther : body_value -> string -> awaited unit)
    (update : string -> UpdateData.t -> awaited R)
    (now id : string) (u : User.t) (body : UpdateBody.t)
    (id' : string) (data : UpdateData.t) :
  In (UpdateUser id' data)
     (snd (updateUser js select selectOther update now id (Some u) body)) ->
  id' = id
  /\ (negb (String.eqb id (User.id u))
      && negb (strict_eq (User.role u) (JStr "admin")) = false)
  /\ ((truthy_body (UpdateBody.role body)
       || truthy_body (UpdateBody.status body))
      && negb (strict_eq (User.role u) (JStr "admin")) = false)
  /\ UpdateData.role data
     = (if strict_eq (User.role u) (JStr "admin")
        then given (UpdateBody.role body) else None)
  /\ UpdateData.status data
     = (if strict_eq (User.role u) (JStr "admin")
        then given (UpdateBody.status body) else None).
Proof.
  handler_paths; simpl; intros Hin;
    repeat match goal with
           | H : _ \/ _ |- _ => destruct H
           | H : False |- _ => contradiction
           | H : SelectUser _ = UpdateUser _ _ |- _ => discriminate H
           | H : SelectOtherWithEmail _ _ = UpdateUser _ _ |- _ =>
               discriminate H
           | H : Info _ = UpdateUser _ _ |- _ => discriminate H
           | H : UpdateUser _ _ = UpdateUser _ _ |- _ => injection H as <- <-
           end;
    repeat split; reflexivity.
Qed.

(** X24.  [PUT /:id], for a caller who is not an admin: a body with a truthy
    [role] or [status] is answered 403 before anything is read, on the
    caller's own profile too; and an update that is issued is for the
    caller's own row and sets neither [role] nor [status]. *)
Theorem updateUser_role_and_status (R : Type) (js : Builtins)
    (select : string -> awaited Existing.t)
    (selectOther : body_value -> string -> awaited unit)
    (update : string -> UpdateData.t -> awaited R)
    (now id : string) (u : User.t) (body : UpdateBody.t) :
  User.role u <> JStr "admin" ->
  (truthy_body (UpdateBody.role body) || truthy_body (UpdateBody.status body)
   = true ->
   exists message,
     updateUser js select selectOther update now id (Some u) body
     = (Fail 403 "Access denied" message, []))
  /\ (forall id' data,
         In (UpdateUser id' data)
            (snd (updateUser js select selectOther update now id (Some u)
                    body)) ->
         id' = User.id u
         /\ UpdateData.role data = None
         /\ UpdateData.status data = None).
Proof.
  intros Hrole. apply strict_eq_false in Hrole. split.
  - intros Hset. handler_red. rewrite Hrole, Hset.
    destruct (String.eqb id (User.id u)); simpl; eauto.
  - intros id' data Hin.
    apply updateUser_targets in Hin.
    destruct Hin as (-> & Hself & _ & Hr & Hs).
    rewrite Hrole in Hr, Hs, Hself. rewrite andb_true_r in Hself.
    apply negb_false_iff, String.eqb_eq in Hself. auto.
Qed.

Lemma updateUser_role_and_status_witness :
  exists message,
    updateUser Sample.builtins Sample.select Sample.selectOther Sample.update
      "2025-08-12T19:22:15.000Z" Sample.u2
      (Some (Sample.user Sample.u2 "creator" "active"))
      (Sample.body (Js JUndefined) (Js (JStr "admin")))
    = (Fail 403 "Access denied" message, []).
Proof.
  refine (proj1 (updateUser_role_and_status UpdateData.t Sample.builtins
                   Sample.select Sample.selectOther Sample.update
                   "2025-08-12T19:22:15.000Z" Sample.u2
                   (Sample.user Sample.u2 "creator" "active")
                   (Sample.body (Js JUndefined) (Js (JStr "admin"))) _)
            eq_refl).
  discriminate.
Defined.

(** X25.  [PUT /:id]: when the body asks for a mail address other than the
    one on record and another user has it, the answer is 409 and no update
    is issued. *)
Theorem updateUser_email_taken (R : Type) (js : Builtins)
    (select : string -> awaited Existing.t)
    (selectOther : body_value -> string -> awaited unit)
    (update : string -> UpdateData.t -> awaited R)
    (now id : string) (u : User.t) (body : UpdateBody.t)
    (existing : Existing.t) (other : Pg.result unit) :
  id = User.id u \/ User.role u = JStr "admin" ->
  User.role u = JStr "admin"
  \/ truthy_body (UpdateBody.role body) || truthy_body (UpdateBody.status body)
     = false ->
  select id = Resolved (Pg.found existing) ->
  truthy_body (UpdateBody.email body) = true ->
  differs (UpdateBody.email body) (Existing.email existing) = true ->
  selectOther (UpdateBody.email body) id = Resolved other ->
  Pg.data other = Some tt ->
  updateUser js select selectOther update now id (Some u) body
  = (Fail 409 "Email already exists"
          "Another user is already using this email address",
     [SelectUser id; SelectOtherWithEmail (UpdateBody.email body) id]).
Proof.
  intros Hself Hfields Hrow Hmail Hdiff Hother Hdata.
  destruct other as [found_other error_other]. simpl in Hdata. subst.
  apply self_or_admin_test in Hself.
  assert (Hgate : (truthy_body (UpdateBody.role body)
                   || truthy_body (UpdateBody.status body))
                  && negb (strict_eq (User.role u) (JStr "admin")) = false).
  { destruct Hfields as [H | H].
    - apply strict_eq_true in H. rewrite H. apply andb_false_r.
    - now rewrite H. }
  handler_red. rewrite Hself, Hgate, Hrow. handler_red.
  rewrite Hmail, Hdiff. cbn [andb]. rewrite Hother. reflexivity.
Qed.

Lemma updateUser_email_taken_witness :
  updateUser Sample.builtins Sample.select Sample.selectOther Sample.update
    "2025-08-12T19:22:15.000Z" Sample.u1
    (Some (Sample.user Sample.u1 "creator" "active"))
    (Sample.body (Js (JStr "bob@example.com")) (Js JUndefined))
  = (Fail 409 "Email already exists"
          "Another user is already using this email address",
     [SelectUser Sample.u1;
      SelectOtherWithEmail (Js (JStr "bob@example.com")) Sample.u1]).
Proof.
  refine (updateUser_email_taken UpdateData.t Sample.builtins Sample.select
            Sample.selectOther Sample.update "2025-08-12T19:22:15.000Z"
            Sample.u1 (Sample.user Sample.u1 "creator" "active")
            (Sample.body (Js (JStr "bob@example.com")) (Js JUndefined))
            {| Existing.email := "ann@example.com" |} (Pg.found tt)
            _ _ eq_refl eq_refl eq_refl eq_refl eq_refl).
  - left. reflexivity.
  - right. reflexivity.
Defined.

(** X26.  [PUT /:id]: a body whose [firstName], [lastName] or [email] is
    truthy but not text (a number, an array) never reaches the update: the
    call of the string method throws and the handler ends in
    [next(error)] or in an answer it gave before. *)
Theorem updateUser_not_text (R : Type) (js : Builtins)
    (select : string -> awaited Existing.t)
    (selectOther : body_value -> string -> awaited unit)
    (update : string -> UpdateData.t -> awaited R)
    (now id : string) (u : User.t) (body : UpdateBody.t)
    (id' : string) (data : UpdateData.t) :
  UpdateBody.firstName body = NotText true
  \/ UpdateBody.lastName body = NotText true
  \/ UpdateBody.email body = NotText true ->
  ~ In (UpdateUser id' data)
       (snd (updateUser js select selectOther update now id (Some u) body))
  /\ forall message row,
      fst (updateUser js select selectOther update now id (Some u) body)
      <> Success message row.
Proof.
  intros Hbad.
  handler_paths; simpl; (split; [intros Hin | intros message row]);
    try discriminate;
    destruct Hbad as [Hb | [Hb | Hb]]; try rewrite Hb in *;
    cbn [truthy_body] in *; try discriminate;
    repeat match goal with
           | H : _ \/ _ |- _ => destruct H
           | H : False |- _ => contradiction
           | H : SelectUser _ = UpdateUser _ _ |- _ => discriminate H
           | H : SelectOtherWithEmail _ _ = UpdateUser _ _ |- _ =>
               discriminate H
           end.
Qed.

Lemma updateUser_not_text_witness :
  let run :=
    updateUser Sample.builtins Sample.select Sample.selectOther Sample.update
      "2025-08-12T19:22:15.000Z" Sample.u1
      (Some (Sample.user Sample.u1 "creator" "active"))
      (Sample.body (NotText true) (Js JUndefined)) in
  ~ In (UpdateUser Sample.u1
          {| UpdateData.updated_at := "2025-08-12T19:22:15.000Z";
             UpdateData.first_name := Some "Ann";
             UpdateData.last_name := None;
             UpdateData.email := None;
             UpdateData.timezone := Some (Js (JStr "Europe/London"));
             UpdateData.avatar_url := None;
             UpdateData.role := None;
             UpdateData.status := None |}) (snd run)
  /\ forall message row, fst run <> Success message row.
Proof.
  intros run. subst run.
  refine (updateUser_not_text UpdateData.t Sample.builtins
            Sample.select Sample.selectOther Sample.update
            "2025-08-12T19:22:15.000Z" Sample.u1
            (Sample.user Sample.u1 "creator" "active")
            (Sample.body (NotText true) (Js JUndefined))
            Sample.u1 _ _).
  right. right. reflexivity.
Defined.

(** ** The statistics of [GET /stats] *)

Lemma count_of_cons (k' : string) (n : nat) (acc : list (string * nat))
    (k : string) :
  count_of ((k', n) :: acc) k
  = if String.eqb k' k then n else count_of acc k.
Proof.
  unfold count_of, own. cbn [find fst snd].
  destruct (String.eqb k' k); reflexivity.
Qed.

Lemma count_of_bump (acc : list (string * nat)) (v : jsval) (k : string) :
  inherited k = false ->
  count_of (bump acc v) k
  = count_of acc k + (if String.eqb (key_of v) k then 1 else 0).
Proof.
  intros Hk. unfold bump.
  destruct (String.eqb (key_of v) k) eqn:Hkey.
  - apply String.eqb_eq in Hkey. rewrite Hkey, Hk, count_of_cons.
    now rewrite String.eqb_refl.
  - destruct (inherited (key_of v)); [lia |].
    rewrite count_of_cons, Hkey. lia.
Qed.

Lemma count_of_fold (vs : list jsval) (acc : list (string * nat))
    (k : string) :
  inherited k = false ->
  count_of (fold_left bump vs acc) k
  = count_of acc k
    + length (filter (fun v => String.eqb (key_of v) k) vs).
Proof.
  intros Hk. revert acc.
  induction vs as [| v vs IH]; intros acc; cbn [fold_left filter length].
  - lia.
  - rewrite IH, (count_of_bump acc v k Hk).
    destruct (String.eqb (key_of v) k); cbn [length]; lia.
Qed.

Lemma key_of_text (v : jsval) (k : string) :
  k <> "null" -> k <> "undefined" ->
  String.eqb (key_of v) k = strict_eq (JStr k) v.
Proof.
  intros Hnull Hundef. destruct v as [| | s]; unfold key_of, strict_eq.
  - apply String.eqb_neq. congruence.
  - apply String.eqb_neq. congruence.
  - apply String.eqb_sym.
Qed.

(** The count that the reduce keeps under a name is the number of rows with
    that value. *)
Lemma tally_occurrences (vs : list jsval) (k : string) :
  inherited k = false -> k <> "null" -> k <> "undefined" ->
  count_of (tally vs) k = occurrences (JStr k) vs.
Proof.
  intros Hk Hnull Hundef. unfold tally, occurrences.
  rewrite (count_of_fold vs [] k Hk). cbn [count_of own find plus].
  f_equal. apply filter_ext. intros v. now apply key_of_text.
Qed.

(** Three values that differ: the rows that hold one of them. *)
Lemma occurrences_three (a b c : jsval) (column : list jsval) :
  a <> b -> a <> c -> b <> c ->
  occurrences a column + occurrences b column + occurrences c column
  <= length column
  /\ (occurrences a column + occurrences b column + occurrences c column
      = length column
      <-> Forall (fun v => In v [a; b; c]) column).
Proof.
  intros Hab Hac Hbc. unfold occurrences.
  induction column as [| v column [IHle IHeq]]; cbn [filter length].
  - split; [lia |]. split; [constructor | reflexivity].
  - destruct (strict_eq a v) eqn:Ha, (strict_eq b v) eqn:Hb,
      (strict_eq c v) eqn:Hc;
      try apply strict_eq_true in Ha; try apply strict_eq_true in Hb;
      try apply strict_eq_true in Hc; try congruence;
      cbn [length].
    + split; [lia |]. split.
      * intros H. constructor; [simpl; auto |]. apply IHeq. lia.
      * intros H. inversion H; subst. apply IHeq in H3. lia.
    + split; [lia |]. split.
      * intros H. constructor; [simpl; auto |]. apply IHeq. lia.
      * intros H. inversion H; subst. apply IHeq in H3. lia.
    + split; [lia |]. split.
      * intros H. constructor; [simpl; auto |]. apply IHeq. lia.
      * intros H. inversion H; subst. apply IHeq in H3. lia.
    + apply strict_eq_false in Ha, Hb, Hc.
      split; [lia |]. split.
      * intros H. lia.
      * intros H. inversion H as [| ? ? [H1 | [H1 | [H1 | []]]] ?]; congruence.
Qed.

(** Every path through [getUserStats] that ends in an answer with data. *)
Lemma getUserStats_success (R : Type) (activeRoles statuses : awaited (list jsval))
    (createdSince : Z -> awaited (list R)) (now_ms : Z) (now : string)
    (message : option string) (stats : Stats.t) :
  fst (getUserStats activeRoles statuses createdSince now_ms now)
  = Success message stats ->
  exists roles column recent,
    activeRoles = Resolved (Pg.found roles)
    /\ statuses = Resolved (Pg.found column)
    /\ createdSince (now_ms - 30 * 24 * 60 * 60 * 1000)%Z
       = Resolved (Pg.found recent)
    /\ stats
       = {| Stats.totalUsers := length column;
            Stats.activeUsers := count_of (tally column) "active";
            Stats.inactiveUsers := count_of (tally column) "inactive";
            Stats.suspendedUsers := count_of (tally column) "suspended";
            Stats.roleDistribution :=
              {| Distribution.admin := count_of (tally roles) "admin";
                 Distribution.agency := count_of (tally roles) "agency";
                 Distribution.creator := count_of (tally roles) "creator";
                 Distribution.client := count_of (tally roles) "client" |};
            Stats.recentRegistrations := length recent;
            Stats.generatedAt := now |}.
Proof.
  handler_paths; simpl; intros H; try discriminate.
  injection H as _ <-. do 3 eexists. repeat split; reflexivity.
Qed.

(** X27.  [GET /stats]: when the handler answers, every count it reports is
    the number of rows with that value: the statuses among all rows, the
    roles among the rows of the active users.  Rows with other values, also
    values that name a property every object has, change none of them. *)
Theorem getUserStats_counts (R : Type)
    (activeRoles statuses : awaited (list jsval))
    (createdSince : Z -> awaited (list R)) (now_ms : Z) (now : string)
    (message : option string) (stats : Stats.t) :
  fst (getUserStats activeRoles statuses createdSince now_ms now)
  = Success message stats ->
  exists roles column recent,
    activeRoles = Resolved (Pg.found roles)
    /\ statuses = Resolved (Pg.found column)
    /\ createdSince (now_ms - 30 * 24 * 60 * 60 * 1000)%Z
       = Resolved (Pg.found recent)
    /\ Stats.totalUsers stats = length column
    /\ Stats.activeUsers stats = occurrences (JStr "active") column
    /\ Stats.inactiveUsers stats = occurrences (JStr "inactive") column
    /\ Stats.suspendedUsers stats = occurrences (JStr "suspended") column
    /\ Distribution.admin (Stats.roleDistribution stats)
       = occurrences (JStr "admin") roles
    /\ Distribution.agency (Stats.roleDistribution stats)
       = occurrences (JStr "agency") roles
    /\ Distribution.creator (Stats.roleDistribution stats)
       = occurrences (JStr "creator") roles
    /\ Distribution.client (Stats.roleDistribution stats)
       = occurrences (JStr "client") roles
    /\ Stats.recentRegistrations stats = length recent.
Proof.
  intros H. apply getUserStats_success in H.
  destruct H as (roles & column & recent & Hr & Hc & Hn & ->).
  exists roles, column, recent.
  cbn [Stats.totalUsers Stats.activeUsers Stats.inactiveUsers
       Stats.suspendedUsers Stats.roleDistribution Stats.recentRegistrations
       Distribution.admin Distribution.agency Distribution.creator
       Distribution.client].
  repeat split; try assumption;
    apply tally_occurrences; solve [reflexivity | discriminate].
Qed.

Lemma getUserStats_counts_witness :
  fst (getUserStats Sample.activeRoles Sample.statuses Sample.createdSince
         1755026535000%Z "2025-08-12T19:22:15.000Z")
  = Success None Sample.stats
  /\ Stats.activeUsers Sample.stats = 3
  /\ exists roles column recent,
      Sample.activeRoles = Resolved (Pg.found roles)
      /\ Sample.statuses = Resolved (Pg.found column)
      /\ Sample.createdSince (1755026535000 - 30 * 24 * 60 * 60 * 1000)%Z
         = Resolved (Pg.found recent)
      /\ Stats.totalUsers Sample.stats = length column
      /\ Stats.activeUsers Sample.stats = occurrences (JStr "active") column
      /\ Stats.inactiveUsers Sample.stats
         = occurrences (JStr "inactive") column
      /\ Stats.suspendedUsers Sample.stats
         = occurrences (JStr "suspended") column
      /\ Distribution.admin (Stats.roleDistribution Sample.stats)
         = occurrences (JStr "admin") roles
      /\ Distribution.agency (Stats.roleDistribution Sample.stats)
         = occurrences (JStr "agency") roles
      /\ Distribution.creator (Stats.roleDistribution Sample.stats)
         = occurrences (JStr "creator") roles
      /\ Distribution.client (Stats.roleDistribution Sample.stats)
         = occurrences (JStr "client") roles
      /\ Stats.recentRegistrations Sample.stats = length recent.
Proof.
  split; [reflexivity | split; [reflexivity |]].
  exact (getUserStats_counts unit Sample.activeRoles Sample.statuses
           Sample.createdSince 1755026535000%Z "2025-08-12T19:22:15.000Z"
           None Sample.stats eq_refl).
Defined.

(** X28.  [GET /stats]: the active, inactive and suspended users that are
    reported never add up to more than the total, and they add up to the
    total exactly when every row has one of these three statuses; a row
    whose status is [null] is in the total and in none of the three. *)
Theorem getUserStats_total (R : Type)
    (activeRoles statuses : awaited (list jsval))
    (createdSince : Z -> awaited (list R)) (now_ms : Z) (now : string)
    (message : option string) (stats : Stats.t) :
  fst (getUserStats activeRoles statuses createdSince now_ms now)
  = Success message stats ->
  Stats.activeUsers stats + Stats.inactiveUsers stats
  + Stats.suspendedUsers stats <= Stats.totalUsers stats
  /\ exists column,
      statuses = Resolved (Pg.found column)
      /\ (Stats.activeUsers stats + Stats.inactiveUsers stats
          + Stats.suspendedUsers stats = Stats.totalUsers stats
          <-> Forall (fun v => In v [JStr "active"; JStr "inactive";
                                     JStr "suspended"]) column).
Proof.
  intros H. apply getUserStats_success in H.
  destruct H as (roles & column & recent & Hr & Hc & Hn & ->).
  cbn [Stats.totalUsers Stats.activeUsers Stats.inactiveUsers
       Stats.suspendedUsers].
  rewrite !tally_occurrences by solve [reflexivity | discriminate].
  pose proof (occurrences_three (JStr "active") (JStr "inactive")
                (JStr "suspended") column) as [Hle Heq];
    try discriminate.
  split; [exact Hle |]. exists column. split; [exact Hc | exact Heq].
Qed.

Lemma getUserStats_total_witness :
  Stats.activeUsers Sample.stats + Stats.inactiveUsers Sample.stats
  + Stats.suspendedUsers Sample.stats <= Stats.totalUsers Sample.stats
  /\ exists column,
      Sample.statuses = Resolved (Pg.found column)
      /\ (Stats.activeUsers Sample.stats + Stats.inactiveUsers Sample.stats
          + Stats.suspendedUsers Sample.stats = Stats.totalUsers Sample.stats
          <-> Forall (fun v => In v [JStr "active"; JStr "inactive";
                                     JStr "suspended"]) column).
Proof.
  exact (getUserStats_total unit Sample.activeRoles Sample.statuses
           Sample.createdSince 1755026535000%Z "2025-08-12T19:22:15.000Z"
           None Sample.stats eq_refl).
Defined.
